(** * ministry-automation: excerpt selector and retrying publisher

    A shallow embedding of [main.py]: the excerpt selector
    [get_random_chapter], the publisher [post_to_facebook] and the request
    handler [create_post], followed by the properties of the written
    specification that were checked against them.

    Conventions of the embedding.
    - A Python [str] is a [string]; every [ascii] stands for one code point
      (the code points 0..255).
    - A Python [int] is a [Z].
    - A value read from the JSON database is a [value]: [None], a string or
      a dict.  A dict is an association list in insertion order, which is
      the order [list(d.keys())] enumerates.
    - [random.choice] takes its raw random draw as an explicit argument.
    - An exception is a value of [exn]; fallible code returns a [result]. *)

From Stdlib Require Import ZArith List Bool Lia.
From Stdlib Require Import Strings.String Strings.Ascii Numbers.DecimalString.
Import ListNotations.
Open Scope string_scope.
Open Scope Z_scope.

(* ================================================================= *)
(** ** Python values, exceptions, results *)

#[warnings="-register-all"]
Inductive value : Type :=
| PNone
| PStr (s : string)
| PDict (d : list (string * value)).

Definition dict : Type := list (string * value).

Inductive exn : Type :=
| IndexError (msg : string)
| KeyError (msg : string)
| AttributeError (msg : string)
| TypeError (msg : string)
| ValueError (msg : string)
| OverflowError (msg : string)
| RequestException (msg : string).

(** [str(e)] *)
Definition exn_str (e : exn) : string :=
  match e with
  | IndexError m | KeyError m | AttributeError m
  | TypeError m | ValueError m | OverflowError m | RequestException m => m
  end.

Inductive result (A : Type) : Type :=
| Ok (a : A)
| Raise (e : exn).
Arguments Ok {A} a.
Arguments Raise {A} e.

Definition rbind {A B} (m : result A) (f : A -> result B) : result B :=
  match m with
  | Ok a => f a
  | Raise e => Raise e
  end.

Declare Scope result_scope.
Delimit Scope result_scope with result.
Notation "x <- m ;; k" := (rbind m (fun x => k))
  (at level 61, m at next level, right associativity) : result_scope.

(* ================================================================= *)
(** ** The [str] primitives the selector uses *)

Module PyStr.

(** [len(s)] *)
Definition len (s : string) : Z := Z.of_nat (String.length s).

Fixpoint take (n : nat) (s : string) : string :=
  match n, s with
  | O, _ => ""
  | S _, "" => ""
  | S n', String a s' => String a (take n' s')
  end.

(** [s[:k]]; a negative [k] counts from the end. *)
Definition slice_to (k : Z) (s : string) : string :=
  if k <? 0 then take (Z.to_nat (len s + k)) s else take (Z.to_nat k) s.

Fixpoint last_index (c : ascii) (s : string) : option nat :=
  match s with
  | "" => None
  | String a s' =>
      match last_index c s' with
      | Some i => Some (S i)
      | None => if Ascii.eqb a c then Some O else None
      end
  end.

(** [s.rfind(c)] for a one-character needle: the highest index holding [c],
    or -1. *)
Definition rfind (c : ascii) (s : string) : Z :=
  match last_index c s with
  | Some i => Z.of_nat i
  | None => -1
  end.

(** [c.isspace()] on the code points 0..255: TAB, LF, VT, FF, CR, the
    separators FS, GS, RS, US, SPACE, NEL and NBSP. *)
Definition is_space (c : ascii) : bool :=
  let n := nat_of_ascii c in
  ((9 <=? n) && (n <=? 13) || (28 <=? n) && (n <=? 32)
   || (n =? 133) || (n =? 160))%nat.

(** [s.rstrip()] *)
Fixpoint rstrip (s : string) : string :=
  match s with
  | "" => ""
  | String a s' =>
      match rstrip s' with
      | "" => if is_space a then "" else String a ""
      | r => String a r
      end
  end.

Definition all_space (s : string) : bool :=
  forallb is_space (list_ascii_of_string s).

End PyStr.

(* ================================================================= *)
(** ** Dicts and the methods called on database values *)

Fixpoint dict_lookup (k : string) (d : dict) : option value :=
  match d with
  | [] => None
  | (k', v) :: d' => if String.eqb k k' then Some v else dict_lookup k d'
  end.

(** [d.get(k, default)] on a dict. *)
Definition dict_get (k : string) (default : value) (d : dict) : value :=
  match dict_lookup k d with
  | Some v => v
  | None => default
  end.

Definition type_name (v : value) : string :=
  match v with
  | PNone => "NoneType"
  | PStr _ => "str"
  | PDict _ => "dict"
  end.

Definition no_attribute (v : value) (attr : string) : exn :=
  AttributeError
    ("'" ++ type_name v ++ "' object has no attribute '" ++ attr ++ "'").

(** [v.get(k, default)] on any value. *)
Definition py_get (v : value) (k : string) (default : value) : result value :=
  match v with
  | PDict d => Ok (dict_get k default d)
  | _ => Raise (no_attribute v "get")
  end.

(** [list(v.keys())] *)
Definition py_keys (v : value) : result (list string) :=
  match v with
  | PDict d => Ok (map fst d)
  | _ => Raise (no_attribute v "keys")
  end.

(** [v[k]] for a string key. *)
Definition py_getitem (v : value) (k : string) : result value :=
  match v with
  | PDict d =>
      match dict_lookup k d with
      | Some x => Ok x
      | None => Raise (KeyError k)
      end
  | PStr _ => Raise (TypeError "string indices must be integers")
  | PNone => Raise (TypeError "'NoneType' object is not subscriptable")
  end.

(** The receiver of [full_text[:2000]] followed by [.rfind]: only a [str]
    gets through. *)
Definition py_as_text (v : value) : result string :=
  match v with
  | PStr s => Ok s
  | PNone => Raise (TypeError "'NoneType' object is not subscriptable")
  | PDict _ => Raise (TypeError "unhashable type: 'slice'")
  end.

(** [random.choice(seq)] with the raw draw [r]: the element at index
    [r mod len(seq)], [IndexError] on an empty sequence. *)
Definition random_choice {A} (r : nat) (seq : list A) : result A :=
  match seq with
  | [] => Raise (IndexError "Cannot choose from an empty sequence")
  | x :: _ => Ok (nth (r mod List.length seq) seq x)
  end.

(* ================================================================= *)
(** ** The excerpt selector: [get_random_chapter] *)

Record excerpt : Type := mkExcerpt {
  title : value;
  author : value;
  chapter_name : string;
  text : string;
  link : value
}.

Definition period : ascii := "."%char.

(** [excerpt = full_text[:2000]] *)
Definition candidate (full_text : string) : string :=
  PyStr.slice_to 2000 full_text.

(** The value of the variable [excerpt] after the [if]/[else]. *)
Definition sentence_cut (full_text : string) : string :=
  let excerpt := candidate full_text in
  let last_period := PyStr.rfind period excerpt in
  if negb (last_period =? -1) && (last_period >? PyStr.len excerpt - 200)
  then PyStr.slice_to (last_period + 1) excerpt
  else PyStr.rstrip excerpt.

(** ["..." if len(full_text) > len(excerpt) else ""] *)
Definition ellipsis (full_text : string) : string :=
  if PyStr.len full_text >? PyStr.len (sentence_cut full_text)
  then "..." else "".

(** The ["text"] entry of the returned dict. *)
Definition excerpt_text (full_text : string) : string :=
  sentence_cut full_text ++ ellipsis full_text.

Definition get_random_chapter (database : list value) (r1 r2 : nat)
  : result excerpt :=
  (book <- random_choice r1 database ;;
   title <- py_get book "main_title" PNone ;;
   author <- py_get book "author" PNone ;;
   chapters <- py_get book "chapters" (PDict []) ;;
   names <- py_keys chapters ;;
   chapter_key <- random_choice r2 names ;;
   chapter <- py_getitem chapters chapter_key ;;
   text_field <- py_get chapter "text" (PStr "") ;;
   full_text <- py_as_text text_field ;;
   link <- py_get chapter "link" PNone ;;
   Ok (mkExcerpt title author chapter_key (excerpt_text full_text) link)
  )%result.

(* ================================================================= *)
(** ** The world the publisher acts on *)

Inductive level : Type := INFO | ERROR.

(** What one run leaves behind, in order: HTTP requests sent, calls of
    [time.sleep], records handed to the logger. *)
Inductive event : Type :=
| EvPost (url : string) (payload : dict)
| EvSleep (secs : Z)
| EvLog (lvl : level) (msg : string).

(** What the remote side does with one request: [Fails e] when
    [requests.post], [raise_for_status] or [response.json] raises a
    [RequestException] whose text is [e]; [Responds body] when the status is
    a success and the body decodes to [body]. *)
Inductive outcome : Type :=
| Fails (e : string)
| Responds (body : value).

(** The transport: the outcome of the n-th request of the run, from 0. *)
Definition transport : Type := nat -> outcome.

Record world : Type := mkWorld {
  calls : nat;
  trace : list event
}.

Definition start : world := mkWorld 0 [].

(** Computations that may raise and that act on the world. *)
Definition M (A : Type) : Type := world -> result A * world.

Definition ret {A} (a : A) : M A := fun w => (Ok a, w).

Definition raise {A} (e : exn) : M A := fun w => (Raise e, w).

Definition bind {A B} (m : M A) (f : A -> M B) : M B :=
  fun w =>
    match m w with
    | (Ok a, w') => f a w'
    | (Raise e, w') => (Raise e, w')
    end.

Definition lift {A} (r : result A) : M A := fun w => (r, w).

Declare Scope io_scope.
Delimit Scope io_scope with io.
Notation "x <- m ;; k" := (bind m (fun x => k))
  (at level 61, m at next level, right associativity) : io_scope.
Notation "m ;; k" := (bind m (fun _ => k))
  (at level 61, right associativity) : io_scope.

Definition emit (ev : event) : M unit :=
  fun w => (Ok tt, mkWorld (calls w) (trace w ++ [ev])).

(** [try: body / except requests.RequestException as e: handler] *)
Definition try_except {A} (body : M A) (handler : string -> M A) : M A :=
  fun w =>
    match body w with
    | (Raise (RequestException e), w') => handler e w'
    | other => other
    end.

(** The longest sleep, in whole seconds, whose return the properties
    below rely on: 2^32 - 1 milliseconds, about 49 days, far below the
    range in which a sleep can fail. *)
Definition sleep_sure : Z := 4294967.

(** [time.sleep(secs)] for an [int].  The length is first converted to a
    count of nanoseconds in 64 bits, which fails with [OverflowError] when
    [secs] lies outside -9223372036 .. 9223372036; only then is a negative
    length refused, with [ValueError].  For a length in between, the event
    records the sleep.  (Close to the upper end the deadline, the clock
    plus the length, can pass the limit of the system call, which then
    fails; that depends on the clock and is not modelled, so a property
    that needs a sleep to return assumes a length of at most
    [sleep_sure].) *)
Definition sleep (secs : Z) : M unit :=
  if (secs <? -9223372036) || (9223372036 <? secs)
  then raise (OverflowError "timestamp too large to convert to C _PyTime_t")
  else if secs <? 0
       then raise (ValueError "sleep length must be non-negative")
       else emit (EvSleep secs).

(** The [logger] argument: [None] by default, the ["fb_poster"] logger when
    the handler calls. *)
Inductive logger_arg : Type := NoLogger | FbPoster.

Definition level_method (lvl : level) : string :=
  match lvl with INFO => "info" | ERROR => "error" end.

(** [logger.info(msg)] and [logger.error(msg)] *)
Definition log (logger : logger_arg) (lvl : level) (msg : string) : M unit :=
  match logger with
  | NoLogger => raise (no_attribute PNone (level_method lvl))
  | FbPoster => emit (EvLog lvl msg)
  end.

(** [range(lo, hi)] *)
Definition py_range (lo hi : Z) : list Z :=
  map (fun i => lo + Z.of_nat i) (seq 0 (Z.to_nat (hi - lo))).

(** An [int] inside an f-string. *)
Definition decimal (n : Z) : string := NilZero.string_of_int (Z.to_int n).

(** [bool(v)] *)
Definition truthy (v : value) : bool :=
  match v with
  | PNone => false
  | PStr s => negb (String.eqb s "")
  | PDict d => match d with [] => false | _ => true end
  end.

(** [d[k] = v]: overwrite in place, or append a new key. *)
Fixpoint dict_set (k : string) (v : value) (d : dict) : dict :=
  match d with
  | [] => [(k, v)]
  | (k', v') :: d' =>
      if String.eqb k k' then (k', v) :: d' else (k', v') :: dict_set k v d'
  end.

Definition nl : string := String (ascii_of_nat 10) "".

Inductive http_response : Type :=
| Response200 (post_id : string)
| HTTPException500 (detail : string)
| ResponseInvalid (post_id : value).

Definition status (r : http_response) : Z :=
  match r with
  | Response200 _ => 200
  | HTTPException500 _ => 500
  | ResponseInvalid _ => 500
  end.

(** [response_model=PostResponse], with [post_id: str]: a returned
    [post_id] that is not a string is rejected on the way out. *)
Definition post_response (post_id : value) : http_response :=
  match post_id with
  | PStr s => Response200 s
  | _ => ResponseInvalid post_id
  end.

Section Service.

(** [repr] of a dict, which [str] falls back on; no property depends on
    what it prints. *)
Variable repr_dict : dict -> string.

(** The remote feed endpoint. *)
Variable net : transport.

(** A value inside an f-string. *)
Definition py_str (v : value) : string :=
  match v with
  | PNone => "None"
  | PStr s => s
  | PDict d => repr_dict d
  end.

(** Lines 87 to 89: send the request, check the status, decode the body. *)
Definition requests_post (url : string) (payload : dict) : M value :=
  fun w =>
    let w' := mkWorld (S (calls w)) (trace w ++ [EvPost url payload]) in
    match net (calls w) with
    | Fails e => (Raise (RequestException e), w')
    | Responds body => (Ok body, w')
    end.

Definition feed_url (page_id : string) : string :=
  "https://graph.facebook.com/v22.0/" ++ page_id ++ "/feed".

Definition build_payload (access_token message : string) (link : value)
  : dict :=
  let payload := [("message", PStr message); ("published", PStr "true");
                  ("access_token", PStr access_token)] in
  if truthy link then dict_set "link" link payload else payload.

(** One pass through the body of the [for] loop: [Some result] when the
    function returns [result], [None] when the loop goes on. *)
Definition attempt_once (url : string) (payload : dict)
    (max_retries backoff : Z) (logger : logger_arg) (attempt : Z)
  : M (option value) :=
  try_except
    (result <- requests_post url payload ;;
     match logger with
     | NoLogger => raise (no_attribute PNone "info")
     | FbPoster =>
         id <- lift (py_get result "id" PNone) ;;
         log logger INFO ("Post successful: " ++ py_str id) ;;
         ret (Some result)
     end)%io
    (fun e =>
       (log logger ERROR
          ("Attempt " ++ decimal attempt ++ " failed: " ++ e) ;;
        if attempt <? max_retries
        then sleep (backoff * attempt) ;; ret None
        else
          log logger ERROR
            "Max retries reached. Could not post to Facebook." ;;
          raise (RequestException e))%io).

(** The [for] loop over the attempt numbers still to run; falling off the
    end of the loop returns [None]. *)
Fixpoint retry_loop (url : string) (payload : dict)
    (max_retries backoff : Z) (logger : logger_arg) (attempts : list Z)
  : M value :=
  match attempts with
  | [] => ret PNone
  | attempt :: rest =>
      (r <- attempt_once url payload max_retries backoff logger attempt ;;
       match r with
       | Some result => ret result
       | None => retry_loop url payload max_retries backoff logger rest
       end)%io
  end.

Definition post_to_facebook (page_id access_token message : string)
    (link : value) (max_retries backoff : Z) (logger : logger_arg)
  : M value :=
  retry_loop (feed_url page_id) (build_payload access_token message link)
    max_retries backoff logger (py_range 1 (max_retries + 1)).

(** The message the handler builds from the selected item. *)
Definition format_message (item : excerpt) : string :=
  py_str (title item) ++ ", " ++ py_str (author item) ++ nl
  ++ chapter_name item ++ nl ++ nl
  ++ text item.

(** The globals of lines 103 to 105. *)
Variables page_id access_token : string.
Variable database : list value.

(** The [try] block of [create_post]. *)
Definition create_post_body (r1 r2 : nat) : M value :=
  (item <- lift (get_random_chapter database r1 r2) ;;
   let message := format_message item in
   result <- post_to_facebook page_id access_token message (link item)
               3 5 FbPoster ;;
   lift (py_get result "id" PNone))%io.

Definition create_post (r1 r2 : nat) : world -> http_response * world :=
  fun w =>
    match create_post_body r1 r2 w with
    | (Ok post_id, w') => (post_response post_id, w')
    | (Raise e, w') =>
        (HTTPException500 (exn_str e),
         mkWorld (calls w')
           (trace w' ++ [EvLog ERROR ("Failed to publish post: " ++ exn_str e)]))
    end.

End Service.

(** What a trace shows of the retry schedule. *)
Fixpoint sleeps (tr : list event) : list Z :=
  match tr with
  | [] => []
  | EvSleep s :: tr' => s :: sleeps tr'
  | _ :: tr' => sleeps tr'
  end.

Fixpoint posts (tr : list event) : nat :=
  match tr with
  | [] => O
  | EvPost _ _ :: tr' => S (posts tr')
  | _ :: tr' => posts tr'
  end.

Definition is_log (ev : event) : bool :=
  match ev with EvLog _ _ => true | _ => false end.

(** The trace without the log records. *)
Definition wire (tr : list event) : list event :=
  filter (fun ev => negb (is_log ev)) tr.

(** Which book, chapter name and chapter the two draws pick. *)
Definition selects (database : list value) (r1 r2 : nat)
    (book : dict) (chapter_key : string) (chapter : dict) : Prop :=
  random_choice r1 database = Ok (PDict book) /\
  exists chapters,
    dict_get "chapters" (PDict []) book = PDict chapters /\
    random_choice r2 (map fst chapters) = Ok chapter_key /\
    dict_lookup chapter_key chapters = Some (PDict chapter).

(** [p] is the index of the last [c] of [s]. *)
Definition last_occurrence (c : ascii) (s : string) (p : nat) : Prop :=
  String.get p s = Some c /\
  forall q, (p < q)%nat -> String.get q s <> Some c.

(** [s * n] *)
Fixpoint str_repeat (s : string) (n : nat) : string :=
  match n with
  | O => ""
  | S n' => s ++ str_repeat s n'
  end.

(** The text up to its first line break. *)
Fixpoint first_line (s : string) : string :=
  match s with
  | "" => ""
  | String a s' =>
      if Ascii.eqb a (ascii_of_nat 10) then "" else String a (first_line s')
  end.

Definition single_line (s : string) : Prop :=
  forall i, String.get i s <> Some (ascii_of_nat 10).

(** The precondition of the selector: a chapter is a dict whose text, when
    present, is a string; a book is a dict with at least one chapter. *)
Definition wf_chapter (v : value) : bool :=
  match v with
  | PDict c => match dict_get "text" (PStr "") c with
               | PStr _ => true
               | _ => false
               end
  | _ => false
  end.

Definition wf_book (v : value) : bool :=
  match v with
  | PDict b =>
      match dict_get "chapters" (PDict []) b with
      | PDict chapters =>
          negb (Nat.eqb (List.length chapters) 0)
          && forallb (fun kv => wf_chapter (snd kv)) chapters
      | _ => false
      end
  | _ => false
  end.

Definition wf_database (database : list value) : bool :=
  negb (Nat.eqb (List.length database) 0) && forallb wf_book database.

(** Every request of a trace went to [url] and carried [payload]. *)
Definition posts_carry (url : string) (payload : dict) (tr : list event)
  : Prop :=
  Forall (fun ev => match ev with
                    | EvPost u p => u = url /\ p = payload
                    | _ => True
                    end) tr.

(* ================================================================= *)
(** ** Sample databases and transports *)

(** One book with one chapter; [title_key] is the key its title is
    stored under. *)
Definition walden (title_key : string) (chapter : dict) : dict :=
  [(title_key, PStr "Walden"); ("author", PStr "Thoreau");
   ("chapters", PDict [("Economy", PDict chapter)])].

Definition one_chapter_db (title_key : string) (chapter : dict)
  : list value :=
  [PDict (walden title_key chapter)].

(** A short text with a sentence end in the middle. *)
Definition short_chapter : dict := [("text", PStr "Hi. x")].

(** 200 characters, the only period being the first of them. *)
Definition early_period : string := "." ++ str_repeat "a" 199.
Definition early_period_chapter : dict := [("text", PStr early_period)].

(** The text of the end-to-end scenario, with a link. *)
Definition hello_chapter : dict :=
  [("text", PStr (str_repeat "Hello world. " 50));
   ("link", PStr "https://example.org/walden")].

Definition empty_chapter : dict := [("text", PStr "")].

Definition always_fails : transport := fun _ => Fails "timed out".

Definition fails_twice : transport :=
  fun n =>
    match n with
    | 0%nat | 1%nat => Fails "timed out"
    | _ => Responds (PDict [("id", PStr "1_77"); ("ok", PStr "yes")])
    end.

Definition accepts : transport :=
  fun _ => Responds (PDict [("id", PStr "1_77"); ("ok", PStr "yes")]).

Definition no_repr : dict -> string := fun _ => "{...}".

(** A remote side that answers with a JSON string instead of an object. *)
Definition answers_text : transport := fun _ => Responds (PStr "ok").

(** A chapter whose text is null. *)
Definition null_chapter : dict := [("text", PNone)].

(** Two books, the second with two chapters. *)
Definition essays : dict :=
  [("main_title", PStr "Essays"); ("author", PStr "Emerson");
   ("chapters",
    PDict [("Nature", PDict hello_chapter);
           ("Self-Reliance",
            PDict [("text", PStr "Trust thyself. "); ("link", PStr "")])])].

Definition two_books : list value :=
  [PDict (walden "main_title" short_chapter); PDict essays].

(* ================================================================= *)
(** ** Start-up: the environment *)

(** What [setup_env] raises. *)
Inductive startup_error : Type :=
| EnvironmentError (msg : string).

(** [setup_env], with [os.getenv] after [load_dotenv] as the function
    [getenv].  [not v] holds for a variable that is unset and for one that
    is set to the empty string. *)
Definition setup_env (getenv : string -> option string)
  : startup_error + string * string :=
  match getenv "FB_PAGE_ID", getenv "FB_ACCESS_TOKEN" with
  | Some page_id, Some access_token =>
      if String.eqb page_id "" || String.eqb access_token ""
      then inl (EnvironmentError
                  "FB_PAGE_ID and FB_ACCESS_TOKEN must be set in .env file")
      else inr (page_id, access_token)
  | _, _ =>
      inl (EnvironmentError
             "FB_PAGE_ID and FB_ACCESS_TOKEN must be set in .env file")
  end.

(** An environment given as a list of bindings. *)
Fixpoint env_of (bindings : list (string * string)) (name : string)
  : option string :=
  match bindings with
  | [] => None
  | (n, v) :: rest => if String.eqb name n then Some v else env_of rest name
  end.

(** Every request of a trace went to [url] with the credential [token] and
    the published flag set. *)
Definition posts_authorised (url token : string) (tr : list event) : Prop :=
  Forall (fun ev => match ev with
                    | EvPost u p =>
                        u = url /\
                        dict_lookup "access_token" p = Some (PStr token) /\
                        dict_lookup "published" p = Some (PStr "true")
                    | _ => True
                    end) tr.

(* ================================================================= *)
(** ** Start-up: the logger *)

Inductive sink : Type :=
| Console
| LogFile (path : string).

Record log_handler : Type := mkHandler {
  h_sink : sink;
  h_level : level
}.

(** The logger named ["fb_poster"] once it is set up: its level and its
    own handlers, in the order they were added.  Handlers of other loggers
    are not part of it. *)
Record logger_state : Type := mkLogger {
  l_level : level;
  l_handlers : list log_handler
}.

(** [setup_logging(log_file)].  [logging.getLogger] hands out the one
    logger of that name, so the handlers it already has, [attached], stay
    on it. *)
Definition setup_logging (log_file : string) (attached : list log_handler)
  : logger_state :=
  let ch := mkHandler Console INFO in
  let fh := mkHandler (LogFile log_file) ERROR in
  mkLogger INFO (attached ++ [ch] ++ [fh]).

(** [lvl >= threshold] on the two levels in use. *)
Definition level_ge (lvl threshold : level) : bool :=
  match lvl, threshold with
  | INFO, ERROR => false
  | _, _ => true
  end.

Definition sink_eqb (a b : sink) : bool :=
  match a, b with
  | Console, Console => true
  | LogFile p, LogFile q => String.eqb p q
  | _, _ => false
  end.

(** The records one call of [logger.info] or [logger.error] leaves on the
    sink [s], as level and message: one for each handler on [s] whose level
    lets it through. *)
Definition deliver (logger : logger_state) (s : sink) (lvl : level)
    (msg : string) : list (level * string) :=
  if level_ge lvl (l_level logger)
  then flat_map (fun h => if sink_eqb (h_sink h) s
                             && level_ge lvl (h_level h)
                          then [(lvl, msg)] else [])
         (l_handlers logger)
  else [].

(** What a trace leaves on the sink [s]. *)
Definition written (logger : logger_state) (s : sink) (tr : list event)
  : list (level * string) :=
  flat_map (fun ev => match ev with
                      | EvLog lvl msg => deliver logger s lvl msg
                      | _ => []
                      end) tr.

(** The log records of a trace, and those at error level. *)
Definition log_records (tr : list event) : list (level * string) :=
  flat_map (fun ev => match ev with
                      | EvLog lvl msg => [(lvl, msg)]
                      | _ => []
                      end) tr.

Definition error_records (tr : list event) : list (level * string) :=
  filter (fun r => match fst r with ERROR => true | INFO => false end)
    (log_records tr).

(** The seconds a trace spends asleep. *)
Definition total_sleep (tr : list event) : Z :=
  fold_right Z.add 0 (sleeps tr).

Definition sample_env : string -> option string :=
  env_of [("FB_PAGE_ID", "1234"); ("FB_ACCESS_TOKEN", "secret")].

Definition empty_token_env : string -> option string :=
  env_of [("FB_PAGE_ID", "1234"); ("FB_ACCESS_TOKEN", "")].

(* ================================================================= *)
(** ** Facts about the [str] primitives *)

Module PyStrFacts.
Import PyStr.

Lemma len_nonneg s : 0 <= len s.
Proof. unfold len; lia. Qed.

Lemma length_append s t :
  String.length (s ++ t) = (String.length s + String.length t)%nat.
Proof. induction s as [|a s IH]; simpl; [reflexivity | now rewrite IH]. Qed.

Lemma len_append s t : len (s ++ t) = len s + len t.
Proof. unfold len; rewrite length_append; lia. Qed.

Lemma take_length n s :
  String.length (take n s) = Nat.min n (String.length s).
Proof.
  revert s; induction n as [|n IH]; intros [|a s]; simpl; try reflexivity.
  now rewrite IH.
Qed.

Lemma take_all n s : (String.length s <= n)%nat -> take n s = s.
Proof.
  revert s; induction n as [|n IH]; intros [|a s] H; simpl in *;
    try reflexivity; try lia.
  f_equal; apply IH; lia.
Qed.

Lemma take_get n s i : (i < n)%nat -> String.get i (take n s) = String.get i s.
Proof.
  revert s i; induction n as [|n IH]; intros s i H; [lia|].
  destruct s as [|a s]; simpl; [reflexivity|].
  destruct i as [|i]; [reflexivity|]. apply IH; lia.
Qed.

Lemma get_lt i s c : String.get i s = Some c -> (i < String.length s)%nat.
Proof.
  revert i; induction s as [|a s IH]; intros i H; simpl in *; [discriminate|].
  destruct i as [|i]; [lia|]. apply IH in H; lia.
Qed.

Lemma slice_to_nonneg k s : 0 <= k -> slice_to k s = take (Z.to_nat k) s.
Proof.
  intros H; unfold slice_to.
  destruct (k <? 0) eqn:E; [apply Z.ltb_lt in E; lia | reflexivity].
Qed.

Lemma slice_to_len k s : 0 <= k -> len (slice_to k s) = Z.min k (len s).
Proof.
  intros H; rewrite slice_to_nonneg by assumption.
  unfold len; rewrite take_length; lia.
Qed.

Lemma last_index_none c s :
  last_index c s = None -> forall i, String.get i s <> Some c.
Proof.
  induction s as [|a s IH]; simpl; intros H i; [discriminate|].
  destruct (last_index c s) as [j|]; [discriminate|].
  destruct (Ascii.eqb a c) eqn:E; [discriminate|].
  apply Ascii.eqb_neq in E.
  destruct i as [|i]; [congruence | now apply IH].
Qed.

Lemma last_index_some c s p :
  last_index c s = Some p -> last_occurrence c s p.
Proof.
  revert p; induction s as [|a s IH]; simpl; intros p H; [discriminate|].
  destruct (last_index c s) as [j|] eqn:L.
  - injection H as <-. destruct (IH j eq_refl) as [G N]. split; [exact G|].
    intros [|q] Hq; [lia|]. simpl. apply N; lia.
  - destruct (Ascii.eqb a c) eqn:E; [|discriminate].
    injection H as <-. apply Ascii.eqb_eq in E; subst a. split; [reflexivity|].
    intros [|q] Hq; [lia|]. simpl. now apply last_index_none.
Qed.

Lemma last_occurrence_unique c s p q :
  last_occurrence c s p -> last_occurrence c s q -> p = q.
Proof.
  intros [Gp Np] [Gq Nq].
  destruct (Nat.lt_trichotomy p q) as [H|[H|H]]; [|exact H|].
  - now apply Np in H.
  - now apply Nq in H.
Qed.

Lemma rfind_last_occurrence c s p :
  last_occurrence c s p -> rfind c s = Z.of_nat p.
Proof.
  intros H; unfold rfind. destruct (last_index c s) as [i|] eqn:L.
  - apply last_index_some in L. f_equal.
    eapply last_occurrence_unique; eassumption.
  - destruct H as [G _]. now apply (last_index_none _ _ L) in G.
Qed.

Lemma rfind_range c s : rfind c s = -1 \/ 0 <= rfind c s < len s.
Proof.
  unfold rfind. destruct (last_index c s) as [i|] eqn:L; [right | now left].
  apply last_index_some in L. destruct L as [G _].
  apply get_lt in G. unfold len; lia.
Qed.

Lemma rstrip_take s : rstrip s = take (String.length (rstrip s)) s.
Proof.
  induction s as [|a s IH]; simpl; [reflexivity|].
  destruct (rstrip s) as [|b r] eqn:R.
  - destruct (is_space a); reflexivity.
  - simpl. f_equal. exact IH.
Qed.

Lemma rstrip_length s : (String.length (rstrip s) <= String.length s)%nat.
Proof.
  rewrite rstrip_take at 1. rewrite take_length. lia.
Qed.

Lemma rstrip_len s : len (rstrip s) <= len s.
Proof. pose proof (rstrip_length s); unfold len; lia. Qed.

Lemma rstrip_same_len s : len (rstrip s) = len s -> rstrip s = s.
Proof.
  intros H. rewrite rstrip_take. apply take_all. unfold len in H; lia.
Qed.

End PyStrFacts.

(* ================================================================= *)
(** ** The excerpt selector *)

Section Selector.
Import PyStr PyStrFacts.

Lemma candidate_take full : candidate full = take 2000 full.
Proof. unfold candidate; now rewrite slice_to_nonneg by lia. Qed.

Lemma candidate_short full : len full <= 2000 -> candidate full = full.
Proof.
  intros H; rewrite candidate_take. apply take_all. unfold len in H; lia.
Qed.

Lemma candidate_len full : len (candidate full) = Z.min 2000 (len full).
Proof. unfold candidate; apply slice_to_len; lia. Qed.

Lemma sentence_cut_window full :
  let p := rfind period (candidate full) in
  p <> -1 -> p > len (candidate full) - 200 ->
  sentence_cut full = slice_to (p + 1) (candidate full).
Proof.
  intros p H1 H2. unfold sentence_cut. fold p.
  destruct (p =? -1) eqn:E1; [apply Z.eqb_eq in E1; contradiction|].
  destruct (p >? len (candidate full) - 200) eqn:E2; [reflexivity|].
  rewrite Z.gtb_ltb in E2. apply Z.ltb_ge in E2. lia.
Qed.

Lemma sentence_cut_fallback full :
  let p := rfind period (candidate full) in
  p = -1 \/ p <= len (candidate full) - 200 ->
  sentence_cut full = rstrip (candidate full).
Proof.
  intros p H. unfold sentence_cut. fold p.
  destruct (p =? -1) eqn:E1; [reflexivity|]. apply Z.eqb_neq in E1.
  destruct (p >? len (candidate full) - 200) eqn:E2; [|reflexivity].
  rewrite Z.gtb_ltb in E2. apply Z.ltb_lt in E2. lia.
Qed.

Lemma sentence_cut_len full :
  len (sentence_cut full) <= len (candidate full).
Proof.
  pose proof (rfind_range period (candidate full)) as R.
  set (p := rfind period (candidate full)) in *.
  destruct (Z.eq_dec p (-1)) as [E|E].
  - rewrite sentence_cut_fallback by (now left). apply rstrip_len.
  - destruct (Z_gt_le_dec p (len (candidate full) - 200)) as [G|G].
    + rewrite sentence_cut_window by assumption. fold p.
      rewrite slice_to_len by lia. lia.
    + rewrite sentence_cut_fallback by (now right). apply rstrip_len.
Qed.

Lemma excerpt_text_len full : len (excerpt_text full) <= 2003.
Proof.
  unfold excerpt_text. rewrite len_append.
  pose proof (sentence_cut_len full) as H. rewrite candidate_len in H.
  assert (len (ellipsis full) <= 3).
  { unfold ellipsis.
    destruct (len full >? len (sentence_cut full)); vm_compute; discriminate. }
  lia.
Qed.

(** What the selector returns, given what the two draws pick. *)
Lemma get_random_chapter_selects database r1 r2 book key chapter full :
  selects database r1 r2 book key chapter ->
  dict_get "text" (PStr "") chapter = PStr full ->
  get_random_chapter database r1 r2
  = Ok (mkExcerpt (dict_get "main_title" PNone book)
          (dict_get "author" PNone book) key (excerpt_text full)
          (dict_get "link" PNone chapter)).
Proof.
  intros (Hb & chapters & Hc & Hk & Hl) Ht. unfold get_random_chapter.
  rewrite Hb; simpl. rewrite Hc; simpl. rewrite Hk; simpl.
  rewrite Hl; simpl. rewrite Ht; simpl. reflexivity.
Qed.

Lemma random_choice_in {A} r (l : list A) :
  l <> [] -> exists x, random_choice r l = Ok x /\ In x l.
Proof.
  destruct l as [|a l]; [congruence|]. intros _.
  unfold random_choice. eexists; split; [reflexivity|].
  apply nth_In. apply Nat.mod_upper_bound. simpl; lia.
Qed.

Lemma dict_lookup_key k (d : dict) :
  In k (map fst d) -> exists v, dict_lookup k d = Some v /\ In (k, v) d.
Proof.
  induction d as [|[k' v'] d IH]; simpl; [contradiction|].
  intros H. destruct (String.eqb k k') eqn:E.
  - apply String.eqb_eq in E; subst. eexists; split; [reflexivity | now left].
  - apply String.eqb_neq in E. destruct H as [H|H]; [congruence|].
    destruct (IH H) as (v & L & I). exists v; split; [exact L | now right].
Qed.

(** A database that meets the precondition lets both draws succeed. *)
Lemma wf_database_selects database r1 r2 :
  wf_database database = true ->
  exists book key chapter full,
    selects database r1 r2 book key chapter /\
    dict_get "text" (PStr "") chapter = PStr full.
Proof.
  unfold wf_database. intros H. apply andb_true_iff in H as [Hne Hall].
  assert (database <> []) as Hdb.
  { intros ->. discriminate. }
  destruct (random_choice_in r1 database Hdb) as (b & Hb & Ib).
  rewrite forallb_forall in Hall. specialize (Hall b Ib).
  destruct b as [|?|book]; try discriminate. simpl in Hall.
  destruct (dict_get "chapters" (PDict []) book) as [|?|chapters] eqn:Hc;
    try discriminate.
  apply andb_true_iff in Hall as [Cne Call].
  assert (map fst chapters <> []) as Hks.
  { destruct chapters; [discriminate | simpl; congruence]. }
  destruct (random_choice_in r2 _ Hks) as (key & Hk & Ik).
  destruct (dict_lookup_key key chapters Ik) as (v & Hl & Iv).
  rewrite forallb_forall in Call. specialize (Call _ Iv). simpl in Call.
  destruct v as [|?|chapter]; try discriminate. simpl in Call.
  destruct (dict_get "text" (PStr "") chapter) as [|full|] eqn:Ht;
    try discriminate.
  exists book, key, chapter, full. split; [|exact Ht].
  split; [exact Hb|]. exists chapters. auto.
Qed.

End Selector.

(* ================================================================= *)
(** ** Properties of the selector *)

Section SelectorClaims.
Import PyStr PyStrFacts.

(** C1, as written, fails: a text of five characters with a period in the
    middle is cut after the period and gets the ellipsis, so the returned
    text is not the stripped full text. *)
Lemma short_text_is_cut_at_inner_period :
  len "Hi. x" <= 2000 /\
  selects (one_chapter_db "main_title" short_chapter) 0 0
    (walden "main_title" short_chapter) "Economy" short_chapter /\
  dict_get "text" (PStr "") short_chapter = PStr "Hi. x" /\
  get_random_chapter (one_chapter_db "main_title" short_chapter) 0 0
  = Ok (mkExcerpt (PStr "Walden") (PStr "Thoreau") "Economy" "Hi...." PNone) /\
  "Hi...." <> rstrip "Hi. x".
Proof.
  repeat split; try reflexivity.
  - vm_compute; discriminate.
  - eexists; repeat split; reflexivity.
  - vm_compute; discriminate.
Qed.

(** C1 (amended): for a chapter whose full text has at most 2000
    characters, the returned text is the full text cut right after its last
    period when that period lies at an index above [len - 200], and the full
    text with trailing whitespace stripped otherwise; the ellipsis is
    appended exactly when that cut or strip removed something, so the text
    comes back unchanged and without ellipsis only when it ends in that
    period, or has no such period and no trailing whitespace. *)
Theorem short_text_excerpt database r1 r2 book key chapter full :
  selects database r1 r2 book key chapter ->
  dict_get "text" (PStr "") chapter = PStr full ->
  len full <= 2000 ->
  exists item,
    get_random_chapter database r1 r2 = Ok item /\
    (rfind period full <> -1 /\ rfind period full > len full - 200 ->
     text item
     = slice_to (rfind period full + 1) full
       ++ (if rfind period full + 1 =? len full then "" else "...")) /\
    (rfind period full = -1 \/ rfind period full <= len full - 200 ->
     text item
     = rstrip full ++ (if String.eqb (rstrip full) full then "" else "...")).
Proof.
  intros Hsel Htext Hlen.
  eexists; split; [eapply get_random_chapter_selects; eassumption|].
  simpl. unfold excerpt_text, ellipsis.
  pose proof (candidate_short full Hlen) as Hc.
  pose proof (rfind_range period full) as R.
  split.
  - intros [H1 H2].
    pose proof (sentence_cut_window full) as W. simpl in W.
    rewrite Hc in W. rewrite (W H1 H2).
    rewrite slice_to_len by lia. f_equal.
    destruct (rfind period full + 1 =? len full) eqn:E.
    + apply Z.eqb_eq in E.
      destruct (len full >? Z.min (rfind period full + 1) (len full)) eqn:G;
        [|reflexivity].
      rewrite Z.gtb_ltb in G. apply Z.ltb_lt in G. lia.
    + apply Z.eqb_neq in E.
      destruct (len full >? Z.min (rfind period full + 1) (len full)) eqn:G;
        [reflexivity|].
      rewrite Z.gtb_ltb in G. apply Z.ltb_ge in G. lia.
  - intros H.
    pose proof (sentence_cut_fallback full) as F. simpl in F.
    rewrite Hc in F. rewrite (F H). f_equal.
    pose proof (rstrip_len full) as L.
    destruct (String.eqb (rstrip full) full) eqn:E.
    + apply String.eqb_eq in E. rewrite E.
      destruct (len full >? len full) eqn:G; [|reflexivity].
      rewrite Z.gtb_ltb in G. apply Z.ltb_lt in G. lia.
    + apply String.eqb_neq in E.
      destruct (len full >? len (rstrip full)) eqn:G; [reflexivity|].
      rewrite Z.gtb_ltb in G. apply Z.ltb_ge in G.
      exfalso. apply E. apply rstrip_same_len. lia.
Qed.

Lemma short_text_excerpt_witness :
  exists item,
    get_random_chapter (one_chapter_db "main_title" short_chapter) 0 0
    = Ok item /\
    (rfind period "Hi. x" <> -1 /\ rfind period "Hi. x" > len "Hi. x" - 200 ->
     text item
     = slice_to (rfind period "Hi. x" + 1) "Hi. x"
       ++ (if rfind period "Hi. x" + 1 =? len "Hi. x" then "" else "...")) /\
    (rfind period "Hi. x" = -1 \/ rfind period "Hi. x" <= len "Hi. x" - 200 ->
     text item
     = rstrip "Hi. x"
       ++ (if String.eqb (rstrip "Hi. x") "Hi. x" then "" else "...")).
Proof.
  apply (short_text_excerpt (one_chapter_db "main_title" short_chapter) 0 0
           (walden "main_title" short_chapter) "Economy" short_chapter "Hi. x").
  - split; [reflexivity|]. eexists; repeat split; reflexivity.
  - reflexivity.
  - vm_compute; discriminate.
Defined.

(** C2, as written, fails: in a candidate of 200 characters whose only
    period is the first character, the period lies within the final 200
    characters, exactly 200 from the end, and the candidate is returned
    whole instead of being cut at the period. *)
Lemma period_200_from_end_is_not_cut :
  last_occurrence period (candidate early_period) 0 /\
  len (candidate early_period) - 200 <= Z.of_nat 0 /\
  selects (one_chapter_db "main_title" early_period_chapter) 0 0
    (walden "main_title" early_period_chapter) "Economy" early_period_chapter /\
  dict_get "text" (PStr "") early_period_chapter = PStr early_period /\
  get_random_chapter (one_chapter_db "main_title" early_period_chapter) 0 0
  = Ok (mkExcerpt (PStr "Walden") (PStr "Thoreau") "Economy"
          early_period PNone) /\
  early_period <> take 1 (candidate early_period) /\
  early_period <> take 1 (candidate early_period) ++ "...".
Proof.
  split; [apply last_index_some; vm_compute; reflexivity|].
  split; [vm_compute; discriminate|].
  split; [split; [reflexivity|]; eexists; repeat split; reflexivity|].
  split; [reflexivity|].
  split; [vm_compute; reflexivity|].
  split; vm_compute; discriminate.
Qed.

(** C2 (amended): when the last period of the candidate (the first
    min(2000, len) characters of the text) lies at an index strictly above
    [len(candidate) - 200], that is within the final 199 characters, the
    excerpt is the candidate cut to end exactly at that period; a last
    period at index [len(candidate) - 200] or before, so also one exactly
    200 characters from the end, leaves the candidate whole, with only its
    trailing whitespace stripped. *)
Theorem cut_at_last_period database r1 r2 book key chapter full p :
  selects database r1 r2 book key chapter ->
  dict_get "text" (PStr "") chapter = PStr full ->
  last_occurrence period (candidate full) p ->
  exists item,
    get_random_chapter database r1 r2 = Ok item /\
    (Z.of_nat p > len (candidate full) - 200 ->
     text item
     = take (S p) (candidate full)
       ++ (if len full >? Z.of_nat (S p) then "..." else "") /\
     String.length (take (S p) (candidate full)) = S p /\
     String.get p (take (S p) (candidate full)) = Some period) /\
    (Z.of_nat p <= len (candidate full) - 200 ->
     text item
     = rstrip (candidate full)
       ++ (if len full >? len (rstrip (candidate full)) then "..." else "")).
Proof.
  intros Hsel Htext Hlast.
  eexists; split; [eapply get_random_chapter_selects; eassumption|].
  cbn [text]. unfold excerpt_text, ellipsis.
  pose proof (rfind_last_occurrence _ _ _ Hlast) as Hp.
  destruct Hlast as [Hget _]. pose proof (get_lt _ _ _ Hget) as Hlt.
  assert (String.length (take (S p) (candidate full)) = S p) as Hl.
  { rewrite take_length. lia. }
  split.
  - intros G.
    pose proof (sentence_cut_window full) as W. simpl in W. rewrite Hp in W.
    rewrite W by lia. rewrite slice_to_nonneg by lia.
    replace (Z.to_nat (Z.of_nat p + 1)) with (S p) by lia.
    split; [|split; [exact Hl|]].
    + unfold len at 2. rewrite Hl. reflexivity.
    + rewrite take_get by lia. exact Hget.
  - intros G.
    pose proof (sentence_cut_fallback full) as F. simpl in F. rewrite Hp in F.
    rewrite F by (right; lia). reflexivity.
Qed.

Lemma cut_at_last_period_witness :
  exists item,
    get_random_chapter (one_chapter_db "main_title" hello_chapter) 0 0
    = Ok item /\
    (Z.of_nat 648 > len (candidate (str_repeat "Hello world. " 50)) - 200 ->
     text item
     = take 649 (candidate (str_repeat "Hello world. " 50))
       ++ (if len (str_repeat "Hello world. " 50) >? Z.of_nat 649
           then "..." else "") /\
     String.length (take 649 (candidate (str_repeat "Hello world. " 50)))
     = 649%nat /\
     String.get 648 (take 649 (candidate (str_repeat "Hello world. " 50)))
     = Some period) /\
    (Z.of_nat 648 <= len (candidate (str_repeat "Hello world. " 50)) - 200 ->
     text item
     = rstrip (candidate (str_repeat "Hello world. " 50))
       ++ (if len (str_repeat "Hello world. " 50)
              >? len (rstrip (candidate (str_repeat "Hello world. " 50)))
           then "..." else "")).
Proof.
  apply (cut_at_last_period (one_chapter_db "main_title" hello_chapter) 0 0
           (walden "main_title" hello_chapter) "Economy" hello_chapter
           (str_repeat "Hello world. " 50) 648).
  - split; [reflexivity|]. eexists; repeat split; reflexivity.
  - reflexivity.
  - apply last_index_some. vm_compute. reflexivity.
Defined.

(** C3: on a non-empty database in which every book has at least one
    chapter and every chapter's text is a string, the selector returns an
    excerpt, and its text has at most 2003 characters. *)
Theorem excerpt_text_bounded database r1 r2 :
  wf_database database = true ->
  exists item,
    get_random_chapter database r1 r2 = Ok item /\
    len (text item) <= 2003.
Proof.
  intros Hwf.
  destruct (wf_database_selects database r1 r2 Hwf)
    as (book & key & chapter & full & Hsel & Htext).
  eexists; split; [eapply get_random_chapter_selects; eassumption|].
  simpl. apply excerpt_text_len.
Qed.

Lemma excerpt_text_bounded_witness :
  exists item,
    get_random_chapter (one_chapter_db "main_title" hello_chapter) 5 7
    = Ok item /\
    len (text item) <= 2003.
Proof.
  apply (excerpt_text_bounded (one_chapter_db "main_title" hello_chapter) 5 7).
  reflexivity.
Defined.

(** C9: when the chosen chapter's text is the empty string, the selector
    returns an excerpt whose text is the empty string, without ellipsis. *)
Theorem empty_text_excerpt database r1 r2 book key chapter :
  selects database r1 r2 book key chapter ->
  dict_get "text" (PStr "") chapter = PStr "" ->
  exists item,
    get_random_chapter database r1 r2 = Ok item /\ text item = "".
Proof.
  intros Hsel Htext.
  eexists; split; [eapply get_random_chapter_selects; eassumption|].
  reflexivity.
Qed.

Lemma empty_text_excerpt_witness :
  exists item,
    get_random_chapter (one_chapter_db "main_title" empty_chapter) 0 0
    = Ok item /\ text item = "".
Proof.
  apply (empty_text_excerpt (one_chapter_db "main_title" empty_chapter) 0 0
           (walden "main_title" empty_chapter) "Economy" empty_chapter).
  - split; [reflexivity|]. eexists; repeat split; reflexivity.
  - reflexivity.
Defined.

End SelectorClaims.

(* ================================================================= *)
(** ** The retry loop *)

Section RetryLoop.

Variable repr_dict : dict -> string.
Variable net : transport.
Variables (url : string) (payload : dict) (max_retries backoff : Z).

Let once := attempt_once repr_dict net url payload max_retries backoff.
Let loop := retry_loop repr_dict net url payload max_retries backoff.

Lemma posts_app tr1 tr2 : posts (tr1 ++ tr2) = (posts tr1 + posts tr2)%nat.
Proof.
  induction tr1 as [|[] tr1 IH]; simpl; try rewrite IH; reflexivity.
Qed.

Lemma sleeps_app tr1 tr2 :
  sleeps (tr1 ++ tr2) = (sleeps tr1 ++ sleeps tr2)%list.
Proof.
  induction tr1 as [|[] tr1 IH]; simpl; try rewrite IH; reflexivity.
Qed.

Lemma py_range_nil lo hi : hi <= lo -> py_range lo hi = [].
Proof.
  intros H; unfold py_range. replace (Z.to_nat (hi - lo)) with O by lia.
  reflexivity.
Qed.

Lemma py_range_cons lo hi :
  lo < hi -> py_range lo hi = lo :: py_range (lo + 1) hi.
Proof.
  intros H; unfold py_range.
  replace (Z.to_nat (hi - lo)) with (S (Z.to_nat (hi - (lo + 1)))) by lia.
  rewrite <- cons_seq, <- seq_shift. simpl. rewrite map_map.
  f_equal; [lia|]. apply map_ext. intros i; lia.
Qed.

Lemma py_range_snoc lo hi :
  lo <= hi -> py_range lo (hi + 1) = (py_range lo hi ++ [hi])%list.
Proof.
  intros H; unfold py_range.
  replace (Z.to_nat (hi + 1 - lo)) with (Z.to_nat (hi - lo) + 1)%nat by lia.
  rewrite seq_app, map_app. simpl. do 2 f_equal. lia.
Qed.

Ltac run_once :=
  cbv beta iota zeta delta
    [attempt_once try_except bind requests_post log emit sleep ret raise
     lift py_get];
  cbn [calls trace fst snd].

Lemma sleep_in_range secs :
  -9223372036 <= secs <= 9223372036 ->
  (secs <? -9223372036) || (9223372036 <? secs) = false.
Proof.
  intros H. apply orb_false_intro; apply Z.ltb_ge; lia.
Qed.

Lemma sleep_out_of_range secs :
  secs < -9223372036 \/ 9223372036 < secs ->
  (secs <? -9223372036) || (9223372036 <? secs) = true.
Proof.
  intros [H|H]; apply orb_true_intro; [left | right]; apply Z.ltb_lt; lia.
Qed.

(** A failed attempt with attempts left: log, sleep, go on. *)
Lemma once_fails_retry e attempt w :
  net (calls w) = Fails e -> attempt < max_retries ->
  0 <= backoff * attempt <= 9223372036 ->
  once FbPoster attempt w
  = (Ok None,
     mkWorld (S (calls w))
       (trace w ++ [EvPost url payload;
                    EvLog ERROR
                      ("Attempt " ++ decimal attempt ++ " failed: " ++ e);
                    EvSleep (backoff * attempt)])).
Proof.
  intros Hnet Hlt Hpos. unfold once. run_once. rewrite Hnet.
  apply Z.ltb_lt in Hlt. rewrite Hlt.
  rewrite sleep_in_range by lia.
  destruct (backoff * attempt <? 0) eqn:E; [apply Z.ltb_lt in E; lia|].
  run_once. rewrite <- !app_assoc. reflexivity.
Qed.

(** The failure of the last attempt: log twice, raise again. *)
Lemma once_fails_last e attempt w :
  net (calls w) = Fails e -> max_retries <= attempt ->
  once FbPoster attempt w
  = (Raise (RequestException e),
     mkWorld (S (calls w))
       (trace w ++ [EvPost url payload;
                    EvLog ERROR
                      ("Attempt " ++ decimal attempt ++ " failed: " ++ e);
                    EvLog ERROR
                      "Max retries reached. Could not post to Facebook."])).
Proof.
  intros Hnet Hge. unfold once. run_once. rewrite Hnet.
  apply Z.ltb_ge in Hge. rewrite Hge.
  run_once. rewrite <- !app_assoc. reflexivity.
Qed.

(** A success with a JSON object as body: log, return the body. *)
Lemma once_responds_dict d attempt w :
  net (calls w) = Responds (PDict d) ->
  once FbPoster attempt w
  = (Ok (Some (PDict d)),
     mkWorld (S (calls w))
       (trace w ++ [EvPost url payload;
                    EvLog INFO
                      ("Post successful: "
                       ++ py_str repr_dict (dict_get "id" PNone d))])).
Proof.
  intros Hnet. unfold once. run_once. rewrite Hnet.
  run_once. rewrite <- !app_assoc. reflexivity.
Qed.

(** A success whose body is not a JSON object: [result.get] raises, and
    the [except] clause does not catch it. *)
Lemma once_responds_other body attempt w :
  net (calls w) = Responds body -> (forall d, body <> PDict d) ->
  once FbPoster attempt w
  = (Raise (no_attribute body "get"),
     mkWorld (S (calls w)) (trace w ++ [EvPost url payload])).
Proof.
  intros Hnet Hd. unfold once. run_once. rewrite Hnet.
  destruct body as [|s|d]; run_once; [reflexivity | reflexivity |].
  now specialize (Hd d).
Qed.

Lemma wire_app tr1 tr2 : wire (tr1 ++ tr2) = (wire tr1 ++ wire tr2)%list.
Proof. apply filter_app. Qed.

(** Whatever happens, one pass sends exactly one request, first; after it
    come log records and at most one sleep, and it sleeps only when it lets
    the loop go on. *)
Lemma once_effect logger attempt w :
  exists evs,
    snd (once logger attempt w)
    = mkWorld (S (calls w)) (trace w ++ EvPost url payload :: evs) /\
    posts evs = O /\
    wire evs = map EvSleep (sleeps evs) /\
    ((fst (once logger attempt w) = Ok None /\
      sleeps evs = [backoff * attempt] /\ attempt < max_retries) \/
     (fst (once logger attempt w) <> Ok None /\ sleeps evs = [])).
Proof.
  unfold once. run_once.
  destruct (net (calls w)) as [e|body]; destruct logger; run_once.
  - exists []. repeat split. right. split; [discriminate | reflexivity].
  - destruct (attempt <? max_retries) eqn:L; run_once.
    + apply Z.ltb_lt in L.
      destruct ((backoff * attempt <? -9223372036)
                || (9223372036 <? backoff * attempt)) eqn:V; run_once.
      { eexists; split; [rewrite <- !app_assoc; reflexivity|].
        do 2 (split; [reflexivity|]).
        right. split; [discriminate | reflexivity]. }
      destruct (backoff * attempt <? 0) eqn:E; run_once.
      * eexists; split; [rewrite <- !app_assoc; reflexivity|].
        do 2 (split; [reflexivity|]).
        right. split; [discriminate | reflexivity].
      * eexists; split; [rewrite <- !app_assoc; reflexivity|].
        do 2 (split; [reflexivity|]). left. repeat split. exact L.
    + eexists; split; [rewrite <- !app_assoc; reflexivity|].
      do 2 (split; [reflexivity|]).
      right. split; [discriminate | reflexivity].
  - exists []. repeat split. right. split; [discriminate | reflexivity].
  - destruct body as [|s|d]; run_once.
    + exists []. repeat split. right. split; [discriminate | reflexivity].
    + exists []. repeat split. right. split; [discriminate | reflexivity].
    + eexists; split; [rewrite <- !app_assoc; reflexivity|].
      do 2 (split; [reflexivity|]).
      right. split; [discriminate | reflexivity].
Qed.

Lemma loop_cons logger attempt rest w :
  loop logger (attempt :: rest) w
  = match once logger attempt w with
    | (Ok (Some result), w') => (Ok result, w')
    | (Ok None, w') => loop logger rest w'
    | (Raise e, w') => (Raise e, w')
    end.
Proof.
  unfold loop, once; cbn [retry_loop]; unfold bind.
  destruct (attempt_once _ _ _ _ _ _ _ _ _) as [[[r|]|e] w']; reflexivity.
Qed.

(** The run of the loop when every remaining attempt fails: it uses up all
    the attempts and raises the failure of the last one. *)
Lemma loop_all_fail e n :
  forall a w,
    1 <= a -> 0 <= backoff -> backoff * (max_retries - 1) <= 9223372036 ->
    a + Z.of_nat n = max_retries ->
    (forall i, (i < n)%nat -> exists e', net (calls w + i)%nat = Fails e') ->
    net (calls w + n)%nat = Fails e ->
    exists w',
      loop FbPoster (py_range a (max_retries + 1)) w
      = (Raise (RequestException e), w') /\
      calls w' = (calls w + S n)%nat /\
      posts (trace w') = (posts (trace w) + S n)%nat /\
      sleeps (trace w')
      = (sleeps (trace w) ++ map (Z.mul backoff) (py_range a max_retries))%list.
Proof.
  induction n as [|n IH]; intros a w Ha Hb Hsure Hmax Hfail Hlast.
  - rewrite Nat.add_0_r in Hlast.
    rewrite py_range_cons by lia. rewrite loop_cons.
    rewrite (once_fails_last e a w) by (assumption || lia).
    eexists; split; [reflexivity|]. cbn [calls trace].
    rewrite posts_app, sleeps_app, py_range_nil by lia. cbn.
    repeat split; lia.
  - destruct (Hfail O ltac:(lia)) as [e0 He0]. rewrite Nat.add_0_r in He0.
    rewrite py_range_cons by lia. rewrite loop_cons.
    rewrite (once_fails_retry e0 a w) by (assumption || nia).
    set (w1 := mkWorld _ _).
    destruct (IH (a + 1) w1) as (w' & Hrun & Hc & Hp & Hs);
      try lia; try nia; subst w1; cbn [calls trace].
    + intros i Hi. replace (S (calls w) + i)%nat with (calls w + S i)%nat by lia.
      apply Hfail; lia.
    + replace (S (calls w) + n)%nat with (calls w + S n)%nat by lia.
      exact Hlast.
    + exists w'. split; [exact Hrun|]. cbn [calls trace] in *.
      rewrite Hc, Hp, Hs, posts_app, sleeps_app.
      rewrite (py_range_cons a max_retries) by lia. cbn.
      rewrite <- app_assoc. repeat split; lia.
Qed.

(** The run of the loop when attempt [k + 1] of the remaining ones is the
    first to succeed, with a JSON object as body: the body is returned and
    no request follows. *)
Lemma loop_first_success d k :
  forall a w,
    1 <= a -> 0 <= backoff ->
    backoff * (a + Z.of_nat k - 1) <= 9223372036 ->
    a + Z.of_nat k <= max_retries ->
    (forall i, (i < k)%nat -> exists e', net (calls w + i)%nat = Fails e') ->
    net (calls w + k)%nat = Responds (PDict d) ->
    exists w',
      loop FbPoster (py_range a (max_retries + 1)) w = (Ok (PDict d), w') /\
      calls w' = (calls w + S k)%nat /\
      posts (trace w') = (posts (trace w) + S k)%nat /\
      sleeps (trace w')
      = (sleeps (trace w)
         ++ map (Z.mul backoff) (py_range a (a + Z.of_nat k)))%list.
Proof.
  induction k as [|k IH]; intros a w Ha Hb Hsure Hmax Hfail Hok.
  - rewrite Nat.add_0_r in Hok.
    rewrite py_range_cons by lia. rewrite loop_cons.
    rewrite (once_responds_dict d a w) by assumption.
    eexists; split; [reflexivity|]. cbn [calls trace].
    rewrite posts_app, sleeps_app, py_range_nil by lia. cbn.
    repeat split; lia.
  - destruct (Hfail O ltac:(lia)) as [e0 He0]. rewrite Nat.add_0_r in He0.
    rewrite py_range_cons by lia. rewrite loop_cons.
    rewrite (once_fails_retry e0 a w) by (assumption || nia).
    set (w1 := mkWorld _ _).
    destruct (IH (a + 1) w1) as (w' & Hrun & Hc & Hp & Hs);
      try lia; try nia; subst w1; cbn [calls trace].
    + intros i Hi. replace (S (calls w) + i)%nat with (calls w + S i)%nat by lia.
      apply Hfail; lia.
    + replace (S (calls w) + k)%nat with (calls w + S k)%nat by lia.
      exact Hok.
    + exists w'. split; [exact Hrun|]. cbn [calls trace] in *.
      rewrite Hc, Hp, Hs, posts_app, sleeps_app.
      rewrite (py_range_cons a (a + Z.of_nat (S k))) by lia. cbn.
      replace (a + 1 + Z.of_nat k) with (a + Z.of_nat (S k)) by lia.
      rewrite <- app_assoc. repeat split; lia.
Qed.

(** Any run of the loop, whatever the transport and the logger: every
    request carries the same payload to the same address; the attempts
    that are followed by a sleep form a prefix of the attempts, each of them
    with another attempt to come, and the sleep after [attempt] lasts
    [backoff * attempt] and comes before the next request. *)
Lemma loop_effect logger attempts :
  forall w,
    exists evs j,
      snd (loop logger attempts w)
      = mkWorld (calls w + posts evs) (trace w ++ evs) /\
      posts_carry url payload evs /\
      sleeps evs = map (Z.mul backoff) (firstn j attempts) /\
      Forall (fun a => a < max_retries) (firstn j attempts) /\
      wire evs
      = (flat_map (fun a => [EvPost url payload; EvSleep (backoff * a)])
           (firstn j attempts)
         ++ (if (j <? List.length attempts)%nat
             then [EvPost url payload] else []))%list.
Proof.
  assert (forall evs1, posts evs1 = O -> posts_carry url payload evs1) as Hnp.
  { induction evs1 as [|[] evs1 IHe]; cbn; intros Hp;
      try discriminate; constructor; auto; apply IHe; assumption. }
  induction attempts as [|a rest IH]; intros w.
  - exists [], O. unfold loop; cbn. rewrite Nat.add_0_r, app_nil_r.
    destruct w; cbn. repeat split; constructor.
  - rewrite loop_cons.
    destruct (once_effect logger a w) as (evs1 & Hw & Hp & Hwire & Hcase).
    destruct (once logger a w) as [r w1] eqn:E. cbn [fst snd] in *. subst w1.
    destruct Hcase as [(Hr & Hs & Hlt) | (Hr & Hs)].
    + subst r.
      destruct (IH (mkWorld (S (calls w)) (trace w ++ EvPost url payload :: evs1)))
        as (evs2 & j & Hw2 & Hc2 & Hs2 & Hf2 & Hwire2).
      exists (EvPost url payload :: evs1 ++ evs2)%list, (S j).
      rewrite Hw2. cbn [calls trace posts firstn map].
      rewrite posts_app, Hp. split; [f_equal; [lia|]|].
      { rewrite <- app_assoc. reflexivity. }
      split.
      { constructor; [split; reflexivity|]. apply Forall_app. split; [|exact Hc2].
        now apply Hnp. }
      cbn [sleeps]. rewrite sleeps_app, Hs, Hs2.
      split; [reflexivity|]. split; [constructor; assumption|].
      change (wire (EvPost url payload :: evs1 ++ evs2))
        with (EvPost url payload :: wire (evs1 ++ evs2)).
      rewrite wire_app, Hwire, Hs, Hwire2. reflexivity.
    + exists (EvPost url payload :: evs1), O.
      assert (snd (match r with
                   | Ok (Some result) => (Ok result, _)
                   | Ok None => loop logger rest _
                   | Raise e => (Raise e, _)
                   end)
              = mkWorld (S (calls w)) (trace w ++ EvPost url payload :: evs1))
        as ->.
      { destruct r as [[r|]|e]; try reflexivity. congruence. }
      cbn [posts firstn map sleeps]. rewrite Hp, Hs.
      split; [f_equal; lia|]. split.
      { constructor; [split; reflexivity|]. now apply Hnp. }
      repeat split; try constructor.
      change (wire (EvPost url payload :: evs1))
        with (EvPost url payload :: wire evs1).
      rewrite Hwire, Hs. reflexivity.
Qed.

End RetryLoop.

(* ================================================================= *)
(** ** Properties of the publisher *)

Section PublisherClaims.

Variable repr_dict : dict -> string.
Variable net : transport.
Variables page_id access_token message : string.
Variable link : value.

(** C5: when every delivery attempt fails, a publish with at least one
    attempt allowed and a non-negative backoff whose longest sleep,
    [backoff * (max_retries - 1)], is at most [sleep_sure] sends exactly
    [max_retries] requests and then raises the failure of the last of
    them. *)
Theorem publish_exhausts_retries max_retries backoff e :
  1 <= max_retries -> 0 <= backoff ->
  backoff * (max_retries - 1) <= sleep_sure ->
  (forall i, (i < Z.to_nat max_retries)%nat -> exists e', net i = Fails e') ->
  net (Z.to_nat max_retries - 1)%nat = Fails e ->
  exists w,
    post_to_facebook repr_dict net page_id access_token message link
      max_retries backoff FbPoster start
    = (Raise (RequestException e), w) /\
    calls w = Z.to_nat max_retries /\
    posts (trace w) = Z.to_nat max_retries /\
    sleeps (trace w) = map (Z.mul backoff) (py_range 1 max_retries).
Proof.
  intros Hmax Hb Hsure Hfail Hlast. unfold post_to_facebook.
  unfold sleep_sure in Hsure.
  destruct (loop_all_fail repr_dict net (feed_url page_id)
              (build_payload access_token message link) max_retries backoff
              e (Z.to_nat max_retries - 1) 1 start)
    as (w & Hrun & Hc & Hp & Hs); try lia.
  - intros i Hi. apply Hfail. cbn [calls start]. lia.
  - exact Hlast.
  - exists w. split; [exact Hrun|]. cbn [calls trace start] in *.
    rewrite Hc, Hp, Hs. cbn. repeat split; lia.
Qed.

(** The publish whose attempt [k + 1] is the first to succeed. *)
Lemma publish_first_success max_retries backoff k d :
  0 <= backoff -> backoff * Z.of_nat k <= sleep_sure ->
  Z.of_nat k < max_retries ->
  (forall i, (i < k)%nat -> exists e, net i = Fails e) ->
  net k = Responds (PDict d) ->
  exists w,
    post_to_facebook repr_dict net page_id access_token message link
      max_retries backoff FbPoster start
    = (Ok (PDict d), w) /\
    calls w = S k /\
    posts (trace w) = S k /\
    sleeps (trace w) = map (Z.mul backoff) (py_range 1 (1 + Z.of_nat k)).
Proof.
  intros Hb Hsure Hk Hfail Hok. unfold post_to_facebook.
  unfold sleep_sure in Hsure.
  destruct (loop_first_success repr_dict net (feed_url page_id)
              (build_payload access_token message link) max_retries backoff
              d k 1 start)
    as (w & Hrun & Hc & Hp & Hs); try lia.
  - exact Hfail.
  - exact Hok.
  - exists w. split; [exact Hrun|]. cbn [calls trace start posts] in *.
    rewrite Hc, Hp, Hs. repeat split.
Qed.

Ltac step lem H :=
  rewrite loop_cons;
  erewrite lem; [| solve [exact H | lia | intros; discriminate] ..].

(** C6: under the default settings (three attempts, backoff unit 5), the
    sleep after a failed attempt [k] that has an attempt to follow lasts
    [5 * k] and comes before the next request; a run whose first two
    attempts fail sleeps 5 and then 10; no run sleeps more than
    [max_retries - 1] times. *)
Theorem default_backoff_schedule :
  let w := snd (post_to_facebook repr_dict net page_id access_token message
                  link 3 5 FbPoster start) in
  let post := EvPost (feed_url page_id)
                (build_payload access_token message link) in
  (exists j, (j <= 2)%nat /\
     sleeps (trace w) = map (Z.mul 5) (firstn j [1; 2; 3]) /\
     wire (trace w)
     = (flat_map (fun k => [post; EvSleep (5 * k)]) (firstn j [1; 2; 3])
        ++ [post])%list) /\
  Z.of_nat (List.length (sleeps (trace w))) <= 3 - 1 /\
  (forall e1 e2, net 0%nat = Fails e1 -> net 1%nat = Fails e2 ->
     sleeps (trace w) = [5; 10] /\
     wire (trace w) = [post; EvSleep 5; post; EvSleep 10; post]) /\
  (forall e1 body, net 0%nat = Fails e1 -> net 1%nat = Responds body ->
     sleeps (trace w) = [5] /\
     wire (trace w) = [post; EvSleep 5; post]) /\
  (forall body, net 0%nat = Responds body ->
     sleeps (trace w) = [] /\ wire (trace w) = [post]).
Proof.
  intros w post. subst w. unfold post_to_facebook.
  change (py_range 1 (3 + 1)) with [1; 2; 3].
  set (url := feed_url page_id) in *.
  set (payload := build_payload access_token message link) in *.
  assert (exists j, (j <= 2)%nat /\
     sleeps (trace (snd (retry_loop repr_dict net url payload 3 5 FbPoster
                           [1; 2; 3] start)))
     = map (Z.mul 5) (firstn j [1; 2; 3]) /\
     wire (trace (snd (retry_loop repr_dict net url payload 3 5 FbPoster
                         [1; 2; 3] start)))
     = (flat_map (fun k => [post; EvSleep (5 * k)]) (firstn j [1; 2; 3])
        ++ [post])%list) as Hgen.
  { destruct (loop_effect repr_dict net url payload 3 5 FbPoster [1; 2; 3]
                start) as (evs & j & Hw & _ & Hs & Hf & Hwire).
    rewrite Hw. cbn [trace start app].
    assert (j <= 2)%nat as Hj.
    { destruct j as [|[|[|j]]]; try lia. cbn in Hf.
      inversion Hf as [|? ? _ Hf1]; subst.
      inversion Hf1 as [|? ? _ Hf2]; subst.
      inversion Hf2 as [|? ? Habs _]; subst. lia. }
    exists j. split; [exact Hj|]. split; [exact Hs|].
    rewrite Hwire. f_equal.
    destruct j as [|[|[|j]]]; try reflexivity. lia. }
  split; [exact Hgen|]. split.
  { destruct Hgen as (j & Hj & Hs & _). rewrite Hs.
    destruct j as [|[|[|j]]]; cbn; lia. }
  split; [|split].
  - intros e1 e2 H0 H1.
    step once_fails_retry H0. step once_fails_retry H1.
    destruct (net 2%nat) as [e3|[|s|d]] eqn:H2.
    + step once_fails_last H2. split; reflexivity.
    + step once_responds_other H2. split; reflexivity.
    + step once_responds_other H2. split; reflexivity.
    + step once_responds_dict H2. split; reflexivity.
  - intros e1 body H0 H1.
    step once_fails_retry H0.
    destruct body as [|s|d].
    + step once_responds_other H1. split; reflexivity.
    + step once_responds_other H1. split; reflexivity.
    + step once_responds_dict H1. split; reflexivity.
  - intros body H0.
    destruct body as [|s|d].
    + step once_responds_other H0. split; reflexivity.
    + step once_responds_other H0. split; reflexivity.
    + step once_responds_dict H0. split; reflexivity.
Qed.

(** C10: a link that is [None], the empty string or any other falsy value
    leaves the payload exactly as it is without a link, with no link field;
    a non-empty string is sent as the link field; so for a link that is
    [None] or a string the field is present exactly when the link is a
    non-empty string.  Every request of a publish carries this payload. *)
Theorem payload_link_field :
  (forall l, truthy l = false ->
     build_payload access_token message l
     = build_payload access_token message PNone /\
     dict_lookup "link" (build_payload access_token message l) = None) /\
  (forall s, s <> "" ->
     dict_lookup "link" (build_payload access_token message (PStr s))
     = Some (PStr s)) /\
  (forall l, l = PNone \/ (exists s, l = PStr s) ->
     (dict_lookup "link" (build_payload access_token message l) <> None
      <-> exists s, l = PStr s /\ s <> "")) /\
  (forall max_retries backoff logger,
     posts_carry (feed_url page_id) (build_payload access_token message link)
       (trace (snd (post_to_facebook repr_dict net page_id access_token
                      message link max_retries backoff logger start)))).
Proof.
  assert (forall l, truthy l = false ->
     build_payload access_token message l
     = build_payload access_token message PNone /\
     dict_lookup "link" (build_payload access_token message l) = None) as H1.
  { intros l Hl. unfold build_payload. rewrite Hl. split; reflexivity. }
  assert (forall s, s <> "" ->
     dict_lookup "link" (build_payload access_token message (PStr s))
     = Some (PStr s)) as H2.
  { intros s Hs. unfold build_payload, truthy.
    apply String.eqb_neq in Hs. rewrite Hs. reflexivity. }
  split; [exact H1|]. split; [exact H2|]. split.
  - intros l [->|[s ->]].
    + split; [intros H; now destruct (H1 PNone eq_refl) as [_ E]|].
      intros (s & E & _); discriminate.
    + destruct (String.eqb s "") eqn:E.
      * apply String.eqb_eq in E; subst s. split.
        -- intros H. now destruct (H1 (PStr "") eq_refl) as [_ E].
        -- intros (s & E & Hs). injection E as <-. congruence.
      * apply String.eqb_neq in E. split.
        -- intros _. exists s. split; [reflexivity | exact E].
        -- intros _. rewrite (H2 s E). discriminate.
  - intros max_retries backoff logger. unfold post_to_facebook.
    destruct (loop_effect repr_dict net (feed_url page_id)
                (build_payload access_token message link) max_retries backoff
                logger (py_range 1 (max_retries + 1)) start)
      as (evs & j & Hw & Hc & _).
    rewrite Hw. exact Hc.
Qed.

End PublisherClaims.

(* ================================================================= *)
(** ** Properties of the request handler *)

Section HandlerClaims.

Variable repr_dict : dict -> string.
Variable net : transport.
Variables page_id access_token : string.
Variable database : list value.

Lemma append_empty_r s : s ++ "" = s.
Proof. induction s as [|c s IH]; cbn; [reflexivity | now rewrite IH]. Qed.

Lemma first_line_single s rest :
  single_line s -> first_line (s ++ rest) = s ++ first_line rest.
Proof.
  induction s as [|c s IH]; intros H; [reflexivity|].
  cbn [append first_line].
  destruct (Ascii.eqb c (ascii_of_nat 10)) eqn:E.
  - apply Ascii.eqb_eq in E. subst c. now specialize (H O).
  - f_equal. apply IH. intros i. exact (H (S i)).
Qed.

Lemma message_in_payload message l :
  dict_lookup "message" (build_payload access_token message l)
  = Some (PStr message).
Proof. unfold build_payload. destruct (truthy l); reflexivity. Qed.

(** With three attempts, every run of the loop sends a first request. *)
Lemma default_publish_posts message l w :
  w = snd (post_to_facebook repr_dict net page_id access_token message l
             3 5 FbPoster start) ->
  In (EvPost (feed_url page_id) (build_payload access_token message l))
    (trace w) /\
  posts_carry (feed_url page_id) (build_payload access_token message l)
    (trace w).
Proof.
  intros ->. unfold post_to_facebook.
  change (py_range 1 (3 + 1)) with [1; 2; 3].
  destruct (loop_effect repr_dict net (feed_url page_id)
              (build_payload access_token message l) 3 5 FbPoster [1; 2; 3]
              start) as (evs & j & Hw & Hc & _ & Hf & Hwire).
  rewrite Hw. cbn [trace start app]. split; [|exact Hc].
  assert (In (EvPost (feed_url page_id)
                (build_payload access_token message l)) (wire evs)) as Hin.
  { rewrite Hwire. apply in_or_app. right.
    destruct j as [|[|[|j]]]; try (now left). cbn in Hf.
    inversion Hf as [|? ? _ Hf1]; subst.
    inversion Hf1 as [|? ? _ Hf2]; subst.
    inversion Hf2 as [|? ? Habs _]; subst. lia. }
  unfold wire in Hin. apply filter_In in Hin. tauto.
Qed.

(** C8: whatever is raised inside the handler, by the selector, by the
    publisher or by the reading of the result, is caught, logged at error
    level and answered with status 500 and the text of the error as detail;
    when the publisher returns a body whose id is a string, the answer is
    status 200 with that string as post_id. *)
Theorem create_post_responses r1 r2 :
  let resp := fst (create_post repr_dict net page_id access_token database
                     r1 r2 start) in
  let w := snd (create_post repr_dict net page_id access_token database
                  r1 r2 start) in
  (forall e, get_random_chapter database r1 r2 = Raise e ->
     resp = HTTPException500 (exn_str e) /\ status resp = 500 /\
     trace w = [EvLog ERROR ("Failed to publish post: " ++ exn_str e)]) /\
  (forall item e w1,
     get_random_chapter database r1 r2 = Ok item ->
     post_to_facebook repr_dict net page_id access_token
       (format_message repr_dict item) (link item) 3 5 FbPoster start
     = (Raise e, w1) ->
     resp = HTTPException500 (exn_str e) /\ status resp = 500 /\
     trace w
     = (trace w1
        ++ [EvLog ERROR ("Failed to publish post: " ++ exn_str e)])%list) /\
  (forall e w1,
     create_post_body repr_dict net page_id access_token database r1 r2 start
     = (Raise e, w1) ->
     resp = HTTPException500 (exn_str e) /\ status resp = 500) /\
  (forall item d id w1,
     get_random_chapter database r1 r2 = Ok item ->
     post_to_facebook repr_dict net page_id access_token
       (format_message repr_dict item) (link item) 3 5 FbPoster start
     = (Ok (PDict d), w1) ->
     dict_lookup "id" d = Some (PStr id) ->
     resp = Response200 id /\ status resp = 200 /\ w = w1).
Proof.
  cbv zeta. unfold create_post, create_post_body, bind, lift.
  split; [|split; [|split]].
  - intros e He. rewrite He. cbn. repeat split.
  - intros item e w1 Hi Hp. rewrite Hi, Hp. cbn. repeat split.
  - intros e w1 Hb. rewrite Hb. cbn. repeat split.
  - intros item d id w1 Hi Hp Hid. rewrite Hi, Hp.
    unfold py_get, dict_get. rewrite Hid. cbn. repeat split.
Qed.

(** C4, as written, fails: a book that stores its title under the key
    [title], as the data model names the field, is announced as "None": the
    handler reads the key [main_title]. *)
Lemma title_field_is_not_read :
  dict_lookup "title" (walden "title" hello_chapter) = Some (PStr "Walden") /\
  dict_lookup "author" (walden "title" hello_chapter)
  = Some (PStr "Thoreau") /\
  create_post no_repr accepts "page" "token"
    (one_chapter_db "title" hello_chapter) 0 0 start
  = (Response200 "1_77",
     mkWorld 1
       [EvPost (feed_url "page")
          (build_payload "token"
             ("None, Thoreau" ++ nl ++ "Economy" ++ nl ++ nl
              ++ excerpt_text (str_repeat "Hello world. " 50))
             (PStr "https://example.org/walden"));
        EvLog INFO "Post successful: 1_77"]) /\
  first_line ("None, Thoreau" ++ nl ++ "Economy" ++ nl ++ nl
              ++ excerpt_text (str_repeat "Hello world. " 50))
  = "None, Thoreau".
Proof. repeat split; vm_compute; reflexivity. Qed.

(** C4 (amended): for a book that stores its title under the key
    [main_title] and its author under [author], both strings, every request
    the handler has the publisher send carries a message that starts with
    the title, a comma and a space, the author and a line break; when
    neither holds a line break these make up the first line. *)
Theorem message_first_line r1 r2 book key chapter full t a :
  selects database r1 r2 book key chapter ->
  dict_get "text" (PStr "") chapter = PStr full ->
  dict_lookup "main_title" book = Some (PStr t) ->
  dict_lookup "author" book = Some (PStr a) ->
  let message := t ++ ", " ++ a ++ nl ++ key ++ nl ++ nl ++ excerpt_text full in
  let payload :=
    build_payload access_token message (dict_get "link" PNone chapter) in
  let w := snd (create_post repr_dict net page_id access_token database
                  r1 r2 start) in
  In (EvPost (feed_url page_id) payload) (trace w) /\
  posts_carry (feed_url page_id) payload (trace w) /\
  dict_lookup "message" payload = Some (PStr message) /\
  (single_line t -> single_line a -> first_line message = t ++ ", " ++ a).
Proof.
  intros Hsel Htext Ht Ha message payload w.
  pose proof (get_random_chapter_selects _ _ _ _ _ _ _ Hsel Htext) as Hget.
  unfold dict_get in Hget at 1 2. rewrite Ht, Ha in Hget.
  split; [|split; [|split]].
  - subst w. unfold create_post, create_post_body, bind, lift. rewrite Hget.
    cbn [title author chapter_name text link format_message py_str].
    fold message. fold payload.
    destruct (default_publish_posts message (dict_get "link" PNone chapter) _
                eq_refl) as [Hin _].
    fold payload in Hin.
    destruct (post_to_facebook _ _ _ _ _ _ _ _ _ _) as [[v|e] w1];
      cbn [snd] in Hin.
    + destruct (py_get v "id" PNone); cbn [snd trace]; [exact Hin|].
      apply in_or_app; now left.
    + cbn [snd trace]. apply in_or_app; now left.
  - subst w. unfold create_post, create_post_body, bind, lift. rewrite Hget.
    cbn [title author chapter_name text link format_message py_str].
    fold message. fold payload.
    destruct (default_publish_posts message (dict_get "link" PNone chapter) _
                eq_refl) as [_ Hc].
    fold payload in Hc.
    destruct (post_to_facebook _ _ _ _ _ _ _ _ _ _) as [[v|e] w1];
      cbn [snd] in Hc.
    + destruct (py_get v "id" PNone); cbn [snd trace]; [exact Hc|].
      apply Forall_app; split; [exact Hc | repeat constructor].
    + cbn [snd trace]. apply Forall_app; split; [exact Hc | repeat constructor].
  - apply message_in_payload.
  - intros St Sa. subst message.
    rewrite first_line_single by exact St.
    cbn [append first_line Ascii.eqb Bool.eqb ascii_of_nat].
    change (first_line (", " ++ a ++ nl ++ key ++ nl ++ nl ++ excerpt_text full))
      with (", " ++ first_line (a ++ nl ++ key ++ nl ++ nl ++ excerpt_text full)).
    rewrite first_line_single by exact Sa.
    change (first_line (nl ++ key ++ nl ++ nl ++ excerpt_text full)) with "".
    now rewrite append_empty_r.
Qed.

(** C7, as written, fails: what publish returns on success is the whole
    body of the response, here a dict with two entries, not the identifier
    found in it. *)
Lemma publish_result_is_the_whole_body :
  accepts 0%nat = Responds (PDict [("id", PStr "1_77"); ("ok", PStr "yes")]) /\
  fst (post_to_facebook no_repr accepts "page" "token" "Hello" PNone
         3 5 FbPoster start)
  = Ok (PDict [("id", PStr "1_77"); ("ok", PStr "yes")]) /\
  dict_get "id" PNone [("id", PStr "1_77"); ("ok", PStr "yes")]
  = PStr "1_77" /\
  fst (post_to_facebook no_repr accepts "page" "token" "Hello" PNone
         3 5 FbPoster start)
  <> Ok (PStr "1_77").
Proof.
  repeat split; try reflexivity. vm_compute. discriminate.
Qed.

(** C7 (amended): when attempt [k + 1] is the first to succeed, within the
    allowed attempts and with a JSON object as body, and the sleeps before
    it, the longest being [backoff * k], last at most [sleep_sure], publish
    returns that whole body, unchanged, after exactly [k + 1] requests, so
    that nothing is sent after the success; it is the handler that reads
    the identifier from the returned body and answers with it. *)
Theorem publish_returns_body k d :
  (forall i, (i < k)%nat -> exists e, net i = Fails e) ->
  net k = Responds (PDict d) ->
  (forall message link max_retries backoff,
     0 <= backoff -> backoff * Z.of_nat k <= sleep_sure ->
     Z.of_nat k < max_retries ->
     exists w,
       post_to_facebook repr_dict net page_id access_token message link
         max_retries backoff FbPoster start
       = (Ok (PDict d), w) /\
       calls w = S k /\ posts (trace w) = S k) /\
  (forall r1 r2 item,
     (k < 3)%nat -> get_random_chapter database r1 r2 = Ok item ->
     fst (create_post repr_dict net page_id access_token database r1 r2 start)
     = post_response (dict_get "id" PNone d) /\
     posts (trace (snd (create_post repr_dict net page_id access_token
                          database r1 r2 start))) = S k).
Proof.
  intros Hfail Hok. split.
  - intros message link max_retries backoff Hb Hsure Hk.
    destruct (publish_first_success repr_dict net page_id access_token
                message link max_retries backoff k d Hb Hsure Hk Hfail Hok)
      as (w & Hrun & Hc & Hp & _).
    exists w. auto.
  - intros r1 r2 item Hk Hitem.
    destruct (publish_first_success repr_dict net page_id access_token
                (format_message repr_dict item) (link item) 3 5 k d
                ltac:(lia) ltac:(unfold sleep_sure; lia) ltac:(lia)
                Hfail Hok)
      as (w & Hrun & Hc & Hp & _).
    unfold create_post, create_post_body, bind, lift.
    rewrite Hitem, Hrun. cbn. split; [reflexivity | exact Hp].
Qed.

End HandlerClaims.

(* ================================================================= *)
(** ** The properties at work on the sample inputs *)

Lemma single_line_check s :
  forallb (fun c => negb (Ascii.eqb c (ascii_of_nat 10)))
    (list_ascii_of_string s) = true ->
  single_line s.
Proof.
  induction s as [|c s IH]; cbn [list_ascii_of_string forallb]; intros H i.
  - discriminate.
  - apply andb_true_iff in H as [Hc Hs]. destruct i as [|i]; cbn [String.get].
    + intros [= ->]. rewrite Ascii.eqb_refl in Hc. discriminate.
    + now apply IH.
Qed.

Lemma message_first_line_witness :
  In (EvPost (feed_url "page")
        (build_payload "token"
           ("Walden, Thoreau" ++ nl ++ "Economy" ++ nl ++ nl
            ++ excerpt_text "Hi. x") PNone))
    (trace (snd (create_post no_repr fails_twice "page" "token"
                   (one_chapter_db "main_title" short_chapter) 0 0 start))) /\
  first_line ("Walden, Thoreau" ++ nl ++ "Economy" ++ nl ++ nl
              ++ excerpt_text "Hi. x")
  = "Walden, Thoreau".
Proof.
  destruct (message_first_line no_repr fails_twice "page" "token"
              (one_chapter_db "main_title" short_chapter) 0 0
              (walden "main_title" short_chapter) "Economy" short_chapter
              "Hi. x" "Walden" "Thoreau")
    as (Hin & _ & _ & Hline).
  - split; [reflexivity|]. eexists; repeat split; reflexivity.
  - reflexivity.
  - reflexivity.
  - reflexivity.
  - split; [exact Hin|].
    apply Hline; apply single_line_check; reflexivity.
Defined.

Lemma publish_exhausts_retries_witness :
  exists w,
    post_to_facebook no_repr always_fails "page" "token" "Hello" PNone
      3 5 FbPoster start
    = (Raise (RequestException "timed out"), w) /\
    calls w = Z.to_nat 3 /\
    posts (trace w) = Z.to_nat 3 /\
    sleeps (trace w) = map (Z.mul 5) (py_range 1 3).
Proof.
  apply (publish_exhausts_retries no_repr always_fails "page" "token" "Hello"
           PNone 3 5 "timed out").
  - lia.
  - lia.
  - unfold sleep_sure. lia.
  - intros i _. eexists; reflexivity.
  - reflexivity.
Defined.

Lemma default_backoff_schedule_witness :
  sleeps (trace (snd (post_to_facebook no_repr fails_twice "page" "token"
                        "Hello" PNone 3 5 FbPoster start)))
  = [5; 10] /\
  wire (trace (snd (post_to_facebook no_repr fails_twice "page" "token"
                      "Hello" PNone 3 5 FbPoster start)))
  = [EvPost (feed_url "page") (build_payload "token" "Hello" PNone);
     EvSleep 5;
     EvPost (feed_url "page") (build_payload "token" "Hello" PNone);
     EvSleep 10;
     EvPost (feed_url "page") (build_payload "token" "Hello" PNone)].
Proof.
  exact (proj1 (proj2 (proj2
           (default_backoff_schedule no_repr fails_twice "page" "token"
              "Hello" PNone)))
           "timed out" "timed out" eq_refl eq_refl).
Defined.

Lemma publish_returns_body_witness :
  (forall message link max_retries backoff,
     0 <= backoff -> backoff * Z.of_nat 2 <= sleep_sure ->
     Z.of_nat 2 < max_retries ->
     exists w,
       post_to_facebook no_repr fails_twice "page" "token" message link
         max_retries backoff FbPoster start
       = (Ok (PDict [("id", PStr "1_77"); ("ok", PStr "yes")]), w) /\
       calls w = 3%nat /\ posts (trace w) = 3%nat) /\
  (forall r1 r2 item,
     (2 < 3)%nat ->
     get_random_chapter (one_chapter_db "main_title" short_chapter) r1 r2
     = Ok item ->
     fst (create_post no_repr fails_twice "page" "token"
            (one_chapter_db "main_title" short_chapter) r1 r2 start)
     = post_response
         (dict_get "id" PNone [("id", PStr "1_77"); ("ok", PStr "yes")]) /\
     posts (trace (snd (create_post no_repr fails_twice "page" "token"
                          (one_chapter_db "main_title" short_chapter)
                          r1 r2 start))) = 3%nat).
Proof.
  apply (publish_returns_body no_repr fails_twice "page" "token"
           (one_chapter_db "main_title" short_chapter) 2
           [("id", PStr "1_77"); ("ok", PStr "yes")]).
  - intros [|[|i]] Hi; try lia; eexists; reflexivity.
  - reflexivity.
Defined.

Lemma create_post_responses_witness :
  fst (create_post no_repr always_fails "page" "token"
         (one_chapter_db "main_title" short_chapter) 0 0 start)
  = HTTPException500 "timed out" /\
  fst (create_post no_repr accepts "page" "token" [] 0 0 start)
  = HTTPException500 "Cannot choose from an empty sequence" /\
  fst (create_post no_repr accepts "page" "token"
         (one_chapter_db "main_title" short_chapter) 0 0 start)
  = Response200 "1_77".
Proof.
  split; [|split].
  - eapply (proj1 (proj2
              (create_post_responses no_repr always_fails "page" "token"
                 (one_chapter_db "main_title" short_chapter) 0 0))
              _ (RequestException "timed out")).
    + reflexivity.
    + reflexivity.
  - apply (proj1
             (create_post_responses no_repr accepts "page" "token" [] 0 0)
             (IndexError "Cannot choose from an empty sequence")).
    reflexivity.
  - eapply (proj2 (proj2 (proj2
              (create_post_responses no_repr accepts "page" "token"
                 (one_chapter_db "main_title" short_chapter) 0 0)))).
    + reflexivity.
    + reflexivity.
    + reflexivity.
Defined.

Lemma payload_link_field_witness :
  build_payload "token" "Hello" (PStr "")
  = build_payload "token" "Hello" PNone /\
  dict_lookup "link" (build_payload "token" "Hello" (PStr "")) = None.
Proof.
  exact (proj1 (payload_link_field no_repr accepts "page" "token" "Hello" PNone)
           (PStr "") eq_refl).
Defined.

(* ================================================================= *)
(** ** More on the selector *)

Section SelectorMore.
Import PyStr PyStrFacts.

Lemma take_take n m s : take n (take m s) = take (Nat.min n m) s.
Proof.
  revert m s; induction n as [|n IH]; intros [|m] [|a s]; cbn;
    try reflexivity.
  f_equal. apply IH.
Qed.

Lemma sentence_cut_take full :
  sentence_cut full = take (String.length (sentence_cut full)) full.
Proof.
  assert (forall k, (k <= 2000)%nat ->
            take k (candidate full) = take k full) as Hk.
  { intros k Hk. rewrite candidate_take, take_take.
    now rewrite Nat.min_l by exact Hk. }
  assert (String.length (candidate full) <= 2000)%nat as Hc.
  { pose proof (candidate_len full) as L. unfold len in L. lia. }
  pose proof (rfind_range period (candidate full)) as R.
  destruct (Z.eq_dec (rfind period (candidate full)) (-1)) as [E|E];
    [|destruct (Z_gt_le_dec (rfind period (candidate full))
                  (len (candidate full) - 200)) as [G|G]].
  - rewrite sentence_cut_fallback by (now left).
    pose proof (rstrip_length (candidate full)).
    rewrite rstrip_take at 1. apply Hk. lia.
  - rewrite sentence_cut_window by assumption.
    rewrite slice_to_nonneg by lia. rewrite take_length.
    unfold len in *.
    rewrite Nat.min_l by lia. apply Hk. lia.
  - rewrite sentence_cut_fallback by (now right).
    pose proof (rstrip_length (candidate full)).
    rewrite rstrip_take at 1. apply Hk. lia.
Qed.

(** The excerpt is a prefix of the chapter text, of at most 2000
    characters, and the ellipsis follows it exactly when the prefix leaves
    something of the text out. *)
Theorem excerpt_is_prefix full :
  exists n,
    (n <= 2000)%nat /\ (n <= String.length full)%nat /\
    sentence_cut full = take n full /\
    excerpt_text full
    = take n full ++ (if (n <? String.length full)%nat then "..." else "").
Proof.
  exists (String.length (sentence_cut full)).
  pose proof (sentence_cut_len full) as L. rewrite candidate_len in L.
  unfold len in L.
  assert (String.length (sentence_cut full) <= String.length full)%nat as Hle
    by lia.
  split; [lia|]. split; [exact Hle|]. split; [apply sentence_cut_take|].
  unfold excerpt_text, ellipsis. rewrite <- sentence_cut_take. f_equal.
  unfold len.
  destruct (String.length (sentence_cut full) <? String.length full)%nat eqn:E.
  - apply Nat.ltb_lt in E.
    destruct (Z.of_nat (String.length full)
              >? Z.of_nat (String.length (sentence_cut full))) eqn:G;
      [reflexivity|].
    rewrite Z.gtb_ltb in G. apply Z.ltb_ge in G. lia.
  - apply Nat.ltb_ge in E.
    destruct (Z.of_nat (String.length full)
              >? Z.of_nat (String.length (sentence_cut full))) eqn:G;
      [|reflexivity].
    rewrite Z.gtb_ltb in G. apply Z.ltb_lt in G. lia.
Qed.

(** A text of more than 2000 characters always comes back with the
    ellipsis, after at most 2000 of its characters. *)
Theorem long_text_gets_ellipsis full :
  len full > 2000 ->
  excerpt_text full = sentence_cut full ++ "..." /\
  len (sentence_cut full) <= 2000 /\
  len (excerpt_text full) <= 2003.
Proof.
  intros H. pose proof (sentence_cut_len full) as L.
  rewrite candidate_len in L.
  split; [|split; [lia | apply excerpt_text_len]].
  unfold excerpt_text, ellipsis.
  destruct (len full >? len (sentence_cut full)) eqn:G; [reflexivity|].
  rewrite Z.gtb_ltb in G. apply Z.ltb_ge in G. lia.
Qed.

Lemma long_text_gets_ellipsis_witness :
  excerpt_text (str_repeat "Hello world. " 200)
  = sentence_cut (str_repeat "Hello world. " 200) ++ "..." /\
  len (sentence_cut (str_repeat "Hello world. " 200)) <= 2000 /\
  len (excerpt_text (str_repeat "Hello world. " 200)) <= 2003.
Proof.
  apply (long_text_gets_ellipsis (str_repeat "Hello world. " 200)).
  vm_compute. reflexivity.
Defined.

Lemma rstrip_last_not_space s :
  forall n c,
    String.length (rstrip s) = S n ->
    String.get n (rstrip s) = Some c -> is_space c = false.
Proof.
  induction s as [|a s IH]; cbn [rstrip]; intros n c Hl Hg; [discriminate|].
  destruct (rstrip s) as [|b r] eqn:R.
  - destruct (is_space a) eqn:Sa; [discriminate|].
    cbn in Hl. injection Hl as <-. cbn in Hg. congruence.
  - cbn [String.length] in Hl. injection Hl as Hl.
    destruct n as [|n]; [discriminate|].
    cbn [String.get] in Hg. exact (IH n c Hl Hg).
Qed.

(** Before the ellipsis the excerpt never ends in whitespace: it ends in
    the period it was cut at, or it was stripped. *)
Theorem excerpt_ends_clean full n c :
  String.length (sentence_cut full) = S n ->
  String.get n (sentence_cut full) = Some c ->
  is_space c = false.
Proof.
  pose proof (rfind_range period (candidate full)) as R.
  destruct (Z.eq_dec (rfind period (candidate full)) (-1)) as [E|E];
    [|destruct (Z_gt_le_dec (rfind period (candidate full))
                  (len (candidate full) - 200)) as [G|G]].
  - rewrite sentence_cut_fallback by (now left). apply rstrip_last_not_space.
  - rewrite sentence_cut_window by assumption.
    unfold rfind in *.
    destruct (last_index period (candidate full)) as [p|] eqn:L;
      [|congruence].
    apply last_index_some in L. destruct L as [Hg _].
    pose proof (get_lt _ _ _ Hg) as Hlt.
    rewrite slice_to_nonneg by lia.
    replace (Z.to_nat (Z.of_nat p + 1)) with (S p) by lia.
    rewrite take_length. intros Hl Hc.
    assert (n = p) as -> by lia.
    rewrite take_get in Hc by lia. rewrite Hg in Hc. injection Hc as <-.
    reflexivity.
  - rewrite sentence_cut_fallback by (now right). apply rstrip_last_not_space.
Qed.

Lemma excerpt_ends_clean_witness : is_space "c"%char = false.
Proof.
  apply (excerpt_ends_clean "abc  " 2 "c"%char); reflexivity.
Defined.

Lemma random_choice_member {A} r (l : list A) x :
  random_choice r l = Ok x -> In x l.
Proof.
  intros H.
  assert (l <> []) as Hne by (intros ->; discriminate).
  destruct (random_choice_in r l Hne) as (y & Hy & Iy). congruence.
Qed.

Lemma dict_lookup_in k (d : dict) v :
  dict_lookup k d = Some v -> In (k, v) d.
Proof.
  induction d as [|[k' v'] d IH]; cbn; [discriminate|].
  destruct (String.eqb k k') eqn:E.
  - apply String.eqb_eq in E. subst. intros [= ->]. now left.
  - intros H. right. now apply IH.
Qed.

(** The selector returns an excerpt exactly when the first draw picks a
    book that is a dict with a dict of chapters, the second draw picks a
    chapter that is a dict, and its text is a string; then every field of
    the excerpt comes from that one book of the database and that one
    chapter of it. *)
Theorem get_random_chapter_ok_iff database r1 r2 item :
  get_random_chapter database r1 r2 = Ok item
  <-> exists book chapters chapter full,
        In (PDict book) database /\
        random_choice r1 database = Ok (PDict book) /\
        dict_get "chapters" (PDict []) book = PDict chapters /\
        random_choice r2 (map fst chapters) = Ok (chapter_name item) /\
        In (chapter_name item, PDict chapter) chapters /\
        dict_lookup (chapter_name item) chapters = Some (PDict chapter) /\
        dict_get "text" (PStr "") chapter = PStr full /\
        title item = dict_get "main_title" PNone book /\
        author item = dict_get "author" PNone book /\
        text item = excerpt_text full /\
        link item = dict_get "link" PNone chapter.
Proof.
  split.
  - unfold get_random_chapter. intros H.
    destruct (random_choice r1 database) as [b|e] eqn:Hb; [|discriminate].
    pose proof (random_choice_member _ _ _ Hb) as Ib. cbn [rbind] in H.
    destruct b as [| |book]; try discriminate. cbn [py_get rbind] in H.
    destruct (dict_get "chapters" (PDict []) book) as [| |chapters] eqn:Hc;
      try discriminate. cbn [py_keys rbind] in H.
    destruct (random_choice r2 (map fst chapters)) as [key|e] eqn:Hk;
      [|discriminate]. cbn [rbind py_getitem] in H.
    destruct (dict_lookup key chapters) as [ch|] eqn:Hl; [|discriminate].
    cbn [rbind] in H.
    destruct ch as [| |chapter]; try discriminate. cbn [py_get rbind] in H.
    destruct (dict_get "text" (PStr "") chapter) as [|full|] eqn:Ht;
      try discriminate. cbn [py_as_text rbind] in H.
    injection H as <-. cbn [chapter_name title author text link].
    exists book, chapters, chapter, full.
    repeat split; try assumption; try reflexivity.
    now apply dict_lookup_in.
  - intros (book & chapters & chapter & full & _ & Hb & Hc & Hk & _ & Hl
            & Ht & H1 & H2 & H3 & H4).
    rewrite (get_random_chapter_selects database r1 r2 book
               (chapter_name item) chapter full); [|split; eauto|exact Ht].
    destruct item; cbn in *. congruence.
Qed.

End SelectorMore.

(* ================================================================= *)
(** ** More on the retry loop *)

Section RetryMore.

Variable repr_dict : dict -> string.
Variable net : transport.
Variables (url : string) (payload : dict) (max_retries backoff : Z).

Ltac run_attempt :=
  cbv beta iota zeta delta
    [attempt_once try_except bind requests_post log emit sleep ret raise
     lift py_get];
  cbn [calls trace fst snd].

(** Without a logger one pass sends its request and then fails on the
    first use of the logger, whatever the remote side did. *)
Lemma once_no_logger attempt w :
  attempt_once repr_dict net url payload max_retries backoff NoLogger
    attempt w
  = (Raise (no_attribute PNone
              (match net (calls w) with
               | Fails _ => "error"
               | Responds _ => "info"
               end)),
     mkWorld (S (calls w)) (trace w ++ [EvPost url payload])).
Proof.
  run_attempt. destruct (net (calls w)); run_attempt; reflexivity.
Qed.

(** A failed attempt with attempts left and a sleep length outside the
    range of the conversion. *)
Lemma once_fails_overflow e attempt w :
  net (calls w) = Fails e -> attempt < max_retries ->
  backoff * attempt < -9223372036 \/ 9223372036 < backoff * attempt ->
  attempt_once repr_dict net url payload max_retries backoff FbPoster
    attempt w
  = (Raise (OverflowError "timestamp too large to convert to C _PyTime_t"),
     mkWorld (S (calls w))
       (trace w ++ [EvPost url payload;
                    EvLog ERROR
                      ("Attempt " ++ decimal attempt ++ " failed: " ++ e)])).
Proof.
  intros Hnet Hlt Hout. run_attempt. rewrite Hnet.
  apply Z.ltb_lt in Hlt. rewrite Hlt.
  rewrite (sleep_out_of_range _ Hout).
  run_attempt. rewrite <- !app_assoc. reflexivity.
Qed.

(** A failed attempt with attempts left and a negative sleep length. *)
Lemma once_fails_negative e attempt w :
  net (calls w) = Fails e -> attempt < max_retries ->
  -9223372036 <= backoff * attempt < 0 ->
  attempt_once repr_dict net url payload max_retries backoff FbPoster
    attempt w
  = (Raise (ValueError "sleep length must be non-negative"),
     mkWorld (S (calls w))
       (trace w ++ [EvPost url payload;
                    EvLog ERROR
                      ("Attempt " ++ decimal attempt ++ " failed: " ++ e)])).
Proof.
  intros Hnet Hlt [Hlo Hneg]. run_attempt. rewrite Hnet.
  apply Z.ltb_lt in Hlt. rewrite Hlt.
  rewrite sleep_in_range by lia.
  apply Z.ltb_lt in Hneg. rewrite Hneg.
  run_attempt. rewrite <- !app_assoc. reflexivity.
Qed.

(** How a run of the loop over the attempts [a .. max_retries] can end. *)
Lemma loop_outcome logger n :
  forall a w r w',
    a + Z.of_nat n = max_retries + 1 -> (1 <= n)%nat -> 1 <= a ->
    retry_loop repr_dict net url payload max_retries backoff logger
      (py_range a (max_retries + 1)) w = (r, w') ->
    exists k,
      (k < n)%nat /\
      calls w' = (calls w + S k)%nat /\
      posts (trace w') = (posts (trace w) + S k)%nat /\
      (forall i, (i < k)%nat -> exists e, net (calls w + i)%nat = Fails e) /\
      ((exists d, net (calls w + k)%nat = Responds (PDict d) /\
                  r = Ok (PDict d) /\ logger = FbPoster) \/
       (exists e, net (calls w + k)%nat = Fails e /\
                  r = Raise (RequestException e) /\ S k = n /\
                  logger = FbPoster) \/
       (exists m, r = Raise (AttributeError m)) \/
       (exists m, r = Raise (ValueError m) /\ backoff < 0) \/
       (exists m, r = Raise (OverflowError m))).
Proof.
  induction n as [|n IH]; intros a w r w' Hn Hpos Ha Hrun; [lia|].
  rewrite py_range_cons in Hrun by lia. rewrite loop_cons in Hrun.
  destruct logger.
  { rewrite once_no_logger in Hrun. injection Hrun as <- <-.
    exists O. cbn [calls trace]. rewrite posts_app. cbn.
    repeat split; try lia. right; right; left.
    unfold no_attribute. eexists; reflexivity. }
  destruct (net (calls w)) as [e|body] eqn:Hnet.
  - destruct (Z_lt_le_dec a max_retries) as [Hlt|Hge].
    + assert (backoff * a < -9223372036 \/ 9223372036 < backoff * a \/
              -9223372036 <= backoff * a < 0 \/
              0 <= backoff * a <= 9223372036) as [Hout|[Hout|[Hneg|Hnn]]]
        by lia.
      * rewrite (once_fails_overflow e a w Hnet Hlt (or_introl Hout)) in Hrun.
        injection Hrun as <- <-.
        exists O. cbn [calls trace]. rewrite posts_app. cbn.
        repeat split; try lia. right; right; right; right.
        eexists; reflexivity.
      * rewrite (once_fails_overflow e a w Hnet Hlt (or_intror Hout)) in Hrun.
        injection Hrun as <- <-.
        exists O. cbn [calls trace]. rewrite posts_app. cbn.
        repeat split; try lia. right; right; right; right.
        eexists; reflexivity.
      * rewrite (once_fails_negative e a w Hnet Hlt Hneg) in Hrun.
        injection Hrun as <- <-.
        exists O. cbn [calls trace]. rewrite posts_app. cbn.
        repeat split; try lia. right; right; right; left.
        eexists; split; [reflexivity | nia].
      * rewrite (once_fails_retry repr_dict net url payload max_retries
                   backoff e a w Hnet Hlt Hnn) in Hrun.
        destruct n as [|n]; [lia|].
        destruct (IH (a + 1) _ r w' ltac:(lia) ltac:(lia) ltac:(lia) Hrun)
          as (k & Hk & Hc & Hp & Hf & Hcase).
        cbn [calls trace] in Hc, Hp, Hf, Hcase.
        rewrite posts_app in Hp. cbn in Hp.
        exists (S k). split; [lia|]. split; [lia|]. split; [lia|]. split.
        { intros [|i] Hi.
          - rewrite Nat.add_0_r. eexists; exact Hnet.
          - replace (calls w + S i)%nat with (S (calls w) + i)%nat by lia.
            apply Hf. lia. }
        replace (calls w + S k)%nat with (S (calls w) + k)%nat by lia.
        destruct Hcase as [H|[H|[H|[H|H]]]].
        -- now left.
        -- right; left. destruct H as (e' & H1 & H2 & H3 & H4).
           exists e'. repeat split; try assumption. lia.
        -- now (right; right; left).
        -- now (right; right; right; left).
        -- now (right; right; right; right).
    + rewrite (once_fails_last repr_dict net url payload max_retries backoff
                 e a w Hnet Hge) in Hrun.
      injection Hrun as <- <-.
      exists O. cbn [calls trace]. rewrite posts_app, Nat.add_0_r. cbn.
      repeat split; try lia. right; left. exists e.
      repeat split; try assumption. lia.
  - destruct body as [|s|d].
    + rewrite (once_responds_other repr_dict net url payload max_retries
                 backoff PNone a w Hnet) in Hrun by discriminate.
      injection Hrun as <- <-.
      exists O. cbn [calls trace]. rewrite posts_app. cbn.
      repeat split; try lia. right; right; left.
      unfold no_attribute. eexists; reflexivity.
    + rewrite (once_responds_other repr_dict net url payload max_retries
                 backoff (PStr s) a w Hnet) in Hrun by discriminate.
      injection Hrun as <- <-.
      exists O. cbn [calls trace]. rewrite posts_app. cbn.
      repeat split; try lia. right; right; left.
      unfold no_attribute. eexists; reflexivity.
    + rewrite (once_responds_dict repr_dict net url payload max_retries
                 backoff d a w Hnet) in Hrun.
      injection Hrun as <- <-.
      exists O. cbn [calls trace]. rewrite posts_app, Nat.add_0_r. cbn.
      repeat split; try lia. left. exists d. auto.
Qed.

(** The run of the loop when attempt [k + 1] of the remaining ones is the
    first to get a response, and the body is not a JSON object. *)
Lemma loop_first_response_other body k :
  forall a w,
    (forall d, body <> PDict d) ->
    1 <= a -> 0 <= backoff ->
    backoff * (a + Z.of_nat k - 1) <= 9223372036 ->
    a + Z.of_nat k <= max_retries ->
    (forall i, (i < k)%nat -> exists e', net (calls w + i)%nat = Fails e') ->
    net (calls w + k)%nat = Responds body ->
    exists w',
      retry_loop repr_dict net url payload max_retries backoff FbPoster
        (py_range a (max_retries + 1)) w
      = (Raise (no_attribute body "get"), w') /\
      calls w' = (calls w + S k)%nat /\
      posts (trace w') = (posts (trace w) + S k)%nat.
Proof.
  induction k as [|k IH]; intros a w Hbody Ha Hb Hsure Hmax Hfail Hok.
  - rewrite Nat.add_0_r in Hok.
    rewrite py_range_cons by lia. rewrite loop_cons.
    rewrite (once_responds_other repr_dict net url payload max_retries
               backoff body a w Hok Hbody).
    eexists; split; [reflexivity|]. cbn [calls trace].
    rewrite posts_app. cbn. split; lia.
  - destruct (Hfail O ltac:(lia)) as [e0 He0]. rewrite Nat.add_0_r in He0.
    rewrite py_range_cons by lia. rewrite loop_cons.
    rewrite (once_fails_retry repr_dict net url payload max_retries backoff
               e0 a w) by (assumption || nia).
    set (w1 := mkWorld _ _).
    destruct (IH (a + 1) w1) as (w' & Hrun & Hc & Hp);
      try assumption; try lia; try nia; subst w1; cbn [calls trace].
    + intros i Hi. replace (S (calls w) + i)%nat with (calls w + S i)%nat by lia.
      apply Hfail; lia.
    + replace (S (calls w) + k)%nat with (calls w + S k)%nat by lia.
      exact Hok.
    + exists w'. split; [exact Hrun|]. cbn [calls trace] in *.
      rewrite Hc, Hp, posts_app. cbn. split; lia.
Qed.

End RetryMore.

(* ================================================================= *)
(** ** More on the publisher *)

Section PublisherMore.

Variable repr_dict : dict -> string.
Variable net : transport.
Variables page_id access_token message : string.
Variable link : value.

Lemma firstn_seq_min j :
  forall start n, firstn j (seq start n) = seq start (Nat.min j n).
Proof.
  induction j as [|j IH]; intros start [|n]; cbn; try reflexivity.
  f_equal. apply IH.
Qed.

Lemma firstn_py_range j lo hi :
  firstn j (py_range lo hi)
  = py_range lo (lo + Z.of_nat (Nat.min j (Z.to_nat (hi - lo)))).
Proof.
  unfold py_range. rewrite firstn_map, firstn_seq_min. do 2 f_equal. lia.
Qed.

Lemma py_range_in lo hi x : In x (py_range lo hi) <-> lo <= x < hi.
Proof.
  unfold py_range. rewrite in_map_iff. split.
  - intros (i & <- & Hi). apply in_seq in Hi. lia.
  - intros H. exists (Z.to_nat (x - lo)). split; [lia|]. apply in_seq. lia.
Qed.

Lemma sum_app l1 l2 :
  fold_right Z.add 0 (l1 ++ l2)
  = fold_right Z.add 0 l1 + fold_right Z.add 0 l2.
Proof. induction l1 as [|x l1 IH]; cbn [app fold_right]; lia. Qed.

Lemma sum_backoff b j :
  2 * fold_right Z.add 0 (map (Z.mul b) (py_range 1 (1 + Z.of_nat j)))
  = b * Z.of_nat j * (Z.of_nat j + 1).
Proof.
  induction j as [|j IH].
  - rewrite py_range_nil by lia. cbn [map fold_right]. lia.
  - replace (1 + Z.of_nat (S j)) with (1 + Z.of_nat j + 1) by lia.
    rewrite py_range_snoc by lia. rewrite map_app, sum_app.
    cbn [map fold_right]. nia.
Qed.

(** With no attempt allowed the publisher sends nothing, raises nothing
    and returns [None]. *)
Theorem zero_retries_send_nothing max_retries backoff logger w :
  max_retries <= 0 ->
  post_to_facebook repr_dict net page_id access_token message link
    max_retries backoff logger w
  = (Ok PNone, w).
Proof.
  intros H. unfold post_to_facebook. rewrite py_range_nil by lia. reflexivity.
Qed.

(** Called without a logger, as its default argument has it, the
    publisher never returns a result: it sends one request and raises
    [AttributeError], whether or not the request got through. *)
Theorem no_logger_fails_after_one_request max_retries backoff :
  1 <= max_retries ->
  exists m,
    post_to_facebook repr_dict net page_id access_token message link
      max_retries backoff NoLogger start
    = (Raise (AttributeError m),
       mkWorld 1 [EvPost (feed_url page_id)
                    (build_payload access_token message link)]).
Proof.
  intros H. unfold post_to_facebook. rewrite py_range_cons by lia.
  rewrite loop_cons, once_no_logger. unfold no_attribute.
  eexists; reflexivity.
Qed.

(** A response whose body is not a JSON object is neither returned nor
    retried: the publisher raises [AttributeError] right after the request
    that got it.  The sleeps before that request, the longest being
    [backoff * k], last at most [sleep_sure]. *)
Theorem non_object_body_is_not_retried max_retries backoff k body :
  (forall d, body <> PDict d) ->
  0 <= backoff -> backoff * Z.of_nat k <= sleep_sure ->
  Z.of_nat k < max_retries ->
  (forall i, (i < k)%nat -> exists e, net i = Fails e) ->
  net k = Responds body ->
  exists w,
    post_to_facebook repr_dict net page_id access_token message link
      max_retries backoff FbPoster start
    = (Raise (no_attribute body "get"), w) /\
    calls w = S k /\ posts (trace w) = S k.
Proof.
  intros Hbody Hb Hsure Hk Hfail Hok. unfold post_to_facebook.
  unfold sleep_sure in Hsure.
  destruct (loop_first_response_other repr_dict net (feed_url page_id)
              (build_payload access_token message link) max_retries backoff
              body k 1 start Hbody)
    as (w & Hrun & Hc & Hp); try lia; try assumption.
  exists w. auto.
Qed.

(** A backoff that is negative or above 9223372036 makes the first sleep
    fail: after a failed first attempt with an attempt to follow the
    publish ends with [ValueError], for a negative backoff down to
    -9223372036, or with [OverflowError], for a backoff beyond either end
    of that range; one request was sent and nothing is retried. *)
Theorem refused_sleep_stops_retry max_retries backoff e :
  backoff < 0 \/ 9223372036 < backoff ->
  2 <= max_retries -> net 0%nat = Fails e ->
  exists exc w,
    post_to_facebook repr_dict net page_id access_token message link
      max_retries backoff FbPoster start
    = (Raise exc, w) /\
    posts (trace w) = 1%nat /\ sleeps (trace w) = [] /\
    (-9223372036 <= backoff -> backoff < 0 ->
     exc = ValueError "sleep length must be non-negative") /\
    (backoff < -9223372036 \/ 9223372036 < backoff ->
     exists m, exc = OverflowError m).
Proof.
  intros Hb Hmax Hnet. unfold post_to_facebook. rewrite py_range_cons by lia.
  rewrite loop_cons.
  assert (backoff * 1 < -9223372036 \/ 9223372036 < backoff * 1 \/
          -9223372036 <= backoff * 1 < 0) as [Hout|[Hout|Hneg]] by lia.
  - rewrite (once_fails_overflow repr_dict net (feed_url page_id)
               (build_payload access_token message link) max_retries backoff
               e 1 start Hnet ltac:(lia) (or_introl Hout)).
    do 2 eexists. split; [reflexivity|]. split; [reflexivity|].
    split; [reflexivity|]. split; [lia|]. intros _. eexists; reflexivity.
  - rewrite (once_fails_overflow repr_dict net (feed_url page_id)
               (build_payload access_token message link) max_retries backoff
               e 1 start Hnet ltac:(lia) (or_intror Hout)).
    do 2 eexists. split; [reflexivity|]. split; [reflexivity|].
    split; [reflexivity|]. split; [lia|]. intros _. eexists; reflexivity.
  - rewrite (once_fails_negative repr_dict net (feed_url page_id)
               (build_payload access_token message link) max_retries backoff
               e 1 start Hnet ltac:(lia) Hneg).
    do 2 eexists. split; [reflexivity|]. split; [reflexivity|].
    split; [reflexivity|]. split; [reflexivity|]. lia.
Qed.

(** Whatever the transport and the settings, a publish sends at most
    [max_retries] requests, and its sleeps are [backoff * 1],
    [backoff * 2], ... for at most [max_retries - 1] of them. *)
Theorem publish_request_bound max_retries backoff logger :
  let w := snd (post_to_facebook repr_dict net page_id access_token message
                  link max_retries backoff logger start) in
  (posts (trace w) <= Z.to_nat max_retries)%nat /\
  calls w = posts (trace w) /\
  exists j,
    (j <= Z.to_nat max_retries - 1)%nat /\
    sleeps (trace w) = map (Z.mul backoff) (py_range 1 (1 + Z.of_nat j)).
Proof.
  cbv zeta. destruct (Z_le_gt_dec max_retries 0) as [Hz|Hpos].
  - rewrite zero_retries_send_nothing by exact Hz. cbn.
    repeat split; try lia. exists O. split; [lia | reflexivity].
  - unfold post_to_facebook.
    destruct (retry_loop repr_dict net (feed_url page_id)
                (build_payload access_token message link) max_retries backoff
                logger (py_range 1 (max_retries + 1)) start) as [r w] eqn:Hrun.
    destruct (loop_outcome repr_dict net _ _ max_retries backoff logger
                (Z.to_nat max_retries) 1 start r w ltac:(lia) ltac:(lia)
                ltac:(lia) Hrun) as (k & Hk & Hc & Hp & _).
    cbn [calls trace start posts snd] in *.
    split; [lia|]. split; [lia|].
    destruct (loop_effect repr_dict net (feed_url page_id)
                (build_payload access_token message link) max_retries backoff
                logger (py_range 1 (max_retries + 1)) start)
      as (evs & j & Hw & _ & Hs & Hf & _).
    rewrite Hrun in Hw. cbn [snd trace start app] in Hw. subst w.
    cbn [trace]. rewrite firstn_py_range in Hs, Hf.
    replace (Z.to_nat (max_retries + 1 - 1)) with (Z.to_nat max_retries)
      in Hs, Hf by lia.
    exists (Nat.min j (Z.to_nat max_retries)). split; [|exact Hs].
    destruct (Nat.le_gt_cases (Z.to_nat max_retries) j) as [Hj|Hj]; [|lia].
    exfalso. rewrite Forall_forall in Hf.
    specialize (Hf max_retries). rewrite py_range_in in Hf. lia.
Qed.

(** With a non-negative backoff the sleeps of a publish add up to at most
    [backoff * max_retries * (max_retries - 1) / 2]. *)
Theorem publish_total_sleep_bound max_retries backoff logger :
  0 <= backoff -> 1 <= max_retries ->
  2 * total_sleep
        (trace (snd (post_to_facebook repr_dict net page_id access_token
                       message link max_retries backoff logger start)))
  <= backoff * max_retries * (max_retries - 1).
Proof.
  intros Hb Hmax.
  destruct (publish_request_bound max_retries backoff logger)
    as (_ & _ & j & Hj & Hs).
  unfold total_sleep. rewrite Hs, sum_backoff. nia.
Qed.

(** A publish that returns a result returns the body of a response the
    remote side really gave, a JSON object, to the last request it sent,
    every request before it having failed. *)
Theorem publish_success_sound max_retries backoff logger v w :
  1 <= max_retries ->
  post_to_facebook repr_dict net page_id access_token message link
    max_retries backoff logger start
  = (Ok v, w) ->
  exists k d,
    Z.of_nat k < max_retries /\ v = PDict d /\
    net k = Responds (PDict d) /\
    (forall i, (i < k)%nat -> exists e, net i = Fails e) /\
    posts (trace w) = S k.
Proof.
  intros Hmax Hrun. unfold post_to_facebook in Hrun.
  destruct (loop_outcome repr_dict net _ _ max_retries backoff logger
              (Z.to_nat max_retries) 1 start (Ok v) w ltac:(lia) ltac:(lia)
              ltac:(lia) Hrun) as (k & Hk & Hc & Hp & Hf & Hcase).
  cbn [calls trace start posts] in *.
  destruct Hcase as [(d & Hn & Hr & _) | [(e & _ & Hr & _) |
                     [(m & Hr) | [(m & Hr & _) | (m & Hr)]]]];
    try discriminate.
  injection Hr as ->. exists k, d. repeat split; try assumption; lia.
Qed.

(** A publish that raises a request failure has used up its attempts: it
    sent exactly [max_retries] requests, all of them failed, and the
    failure raised is that of the last one. *)
Theorem publish_failure_sound max_retries backoff logger e w :
  1 <= max_retries ->
  post_to_facebook repr_dict net page_id access_token message link
    max_retries backoff logger start
  = (Raise (RequestException e), w) ->
  (forall i, (i < Z.to_nat max_retries)%nat -> exists e', net i = Fails e') /\
  net (Z.to_nat max_retries - 1)%nat = Fails e /\
  posts (trace w) = Z.to_nat max_retries.
Proof.
  intros Hmax Hrun. unfold post_to_facebook in Hrun.
  destruct (loop_outcome repr_dict net _ _ max_retries backoff logger
              (Z.to_nat max_retries) 1 start _ w ltac:(lia) ltac:(lia)
              ltac:(lia) Hrun) as (k & Hk & Hc & Hp & Hf & Hcase).
  cbn [calls trace start posts] in *.
  destruct Hcase as [(d & _ & Hr & _) | [(e' & Hn & Hr & Hlast & _) |
                     [(m & Hr) | [(m & Hr & _) | (m & Hr)]]]];
    try discriminate.
  injection Hr as ->.
  replace (Z.to_nat max_retries - 1)%nat with k by lia.
  split; [|split; [exact Hn | lia]].
  intros i Hi. destruct (Nat.eq_dec i k) as [->|Hne].
  - eexists; exact Hn.
  - apply Hf. lia.
Qed.

End PublisherMore.

(* ================================================================= *)
(** ** More on the handler and the start-up *)

Section HandlerMore.

Variable repr_dict : dict -> string.
Variable net : transport.
Variables page_id access_token : string.
Variable database : list value.

Lemma random_choice_index {A} (l : list A) x :
  In x l -> exists r, random_choice r l = Ok x.
Proof.
  intros H. destruct (In_nth l x x H) as (i & Hi & Hn).
  exists i. destruct l as [|a l]; [contradiction|].
  unfold random_choice. rewrite Nat.mod_small by exact Hi.
  f_equal. rewrite <- Hn. apply nth_indep. exact Hi.
Qed.

(** No book and no chapter is out of reach of the selector: for every
    chapter stored under a name in a book of the database, with a string as
    text, some pair of draws makes [get_random_chapter] return the excerpt
    of that chapter, with the title and the author of that book. *)
Theorem every_chapter_can_be_drawn book chapters key chapter full :
  In (PDict book) database ->
  dict_get "chapters" (PDict []) book = PDict chapters ->
  dict_lookup key chapters = Some (PDict chapter) ->
  dict_get "text" (PStr "") chapter = PStr full ->
  exists r1 r2,
    get_random_chapter database r1 r2
    = Ok (mkExcerpt (dict_get "main_title" PNone book)
            (dict_get "author" PNone book) key (excerpt_text full)
            (dict_get "link" PNone chapter)).
Proof.
  intros Hb Hc Hl Ht.
  destruct (random_choice_index database _ Hb) as [r1 H1].
  assert (In key (map fst chapters)) as Hk.
  { apply dict_lookup_in in Hl. apply (in_map fst) in Hl. exact Hl. }
  destruct (random_choice_index _ _ Hk) as [r2 H2].
  exists r1, r2. apply get_random_chapter_selects; [|exact Ht].
  split; [exact H1|]. exists chapters. auto.
Qed.

(** An empty database, or a drawn book without chapters (the key absent
    or its dict empty), makes the selector raise [IndexError]; the handler
    then answers 500 with that text and sends no request. *)
Theorem nothing_to_choose_from r1 r2 :
  database = [] \/
  (exists book, random_choice r1 database = Ok (PDict book) /\
                dict_get "chapters" (PDict []) book = PDict []) ->
  get_random_chapter database r1 r2
  = Raise (IndexError "Cannot choose from an empty sequence") /\
  create_post repr_dict net page_id access_token database r1 r2 start
  = (HTTPException500 "Cannot choose from an empty sequence",
     mkWorld 0 [EvLog ERROR
                  "Failed to publish post: Cannot choose from an empty sequence"]).
Proof.
  intros H.
  assert (get_random_chapter database r1 r2
          = Raise (IndexError "Cannot choose from an empty sequence")) as Hg.
  { destruct H as [->|(book & Hb & Hc)]; [reflexivity|].
    unfold get_random_chapter. rewrite Hb. cbn [rbind py_get].
    rewrite Hc. reflexivity. }
  split; [exact Hg|].
  unfold create_post, create_post_body, bind, lift. rewrite Hg. reflexivity.
Qed.

(** A chapter whose text is present but null is not read as empty: the
    selector raises [TypeError], and the handler answers 500 without
    sending a request. *)
Theorem null_text_is_an_error r1 r2 book key chapter :
  selects database r1 r2 book key chapter ->
  dict_lookup "text" chapter = Some PNone ->
  get_random_chapter database r1 r2
  = Raise (TypeError "'NoneType' object is not subscriptable") /\
  fst (create_post repr_dict net page_id access_token database r1 r2 start)
  = HTTPException500 "'NoneType' object is not subscriptable" /\
  posts (trace (snd (create_post repr_dict net page_id access_token database
                       r1 r2 start))) = O.
Proof.
  intros (Hb & chapters & Hc & Hk & Hl) Ht.
  assert (get_random_chapter database r1 r2
          = Raise (TypeError "'NoneType' object is not subscriptable")) as Hg.
  { unfold get_random_chapter. rewrite Hb. cbn [rbind py_get].
    rewrite Hc. cbn [rbind py_keys]. rewrite Hk. cbn [rbind py_getitem].
    rewrite Hl. cbn [rbind py_get]. unfold dict_get at 1. rewrite Ht.
    reflexivity. }
  split; [exact Hg|].
  unfold create_post, create_post_body, bind, lift. rewrite Hg.
  split; reflexivity.
Qed.

Lemma credentials_in_payload message l :
  dict_lookup "access_token" (build_payload access_token message l)
  = Some (PStr access_token) /\
  dict_lookup "published" (build_payload access_token message l)
  = Some (PStr "true").
Proof. unfold build_payload. destruct (truthy l); split; reflexivity. Qed.

Lemma posts_sleeps_log tr lvl msg :
  posts (tr ++ [EvLog lvl msg]) = posts tr /\
  sleeps (tr ++ [EvLog lvl msg]) = sleeps tr.
Proof.
  rewrite posts_app, sleeps_app. cbn. rewrite app_nil_r, Nat.add_0_r.
  split; reflexivity.
Qed.

(** One call of the handler sends at most three requests to the feed and
    sleeps at most 15 seconds in all, and it answers with status 200 or
    500. *)
Theorem create_post_bounds r1 r2 :
  let resp := fst (create_post repr_dict net page_id access_token database
                     r1 r2 start) in
  let w := snd (create_post repr_dict net page_id access_token database
                  r1 r2 start) in
  (posts (trace w) <= 3)%nat /\
  total_sleep (trace w) <= 15 /\
  (status resp = 200 \/ status resp = 500).
Proof.
  cbv zeta. unfold create_post, create_post_body, bind, lift.
  destruct (get_random_chapter database r1 r2) as [item|e].
  - pose proof (publish_request_bound repr_dict net page_id access_token
                  (format_message repr_dict item) (link item) 3 5 FbPoster)
      as (Hp & _).
    pose proof (publish_total_sleep_bound repr_dict net page_id access_token
                  (format_message repr_dict item) (link item) 3 5 FbPoster
                  ltac:(lia) ltac:(lia)) as Hs.
    destruct (post_to_facebook _ _ _ _ _ _ _ _ _ _) as [[v|e] w1].
    + cbn [snd fst] in *. destruct (py_get v "id" PNone) as [id|e].
      * cbn [snd fst]. split; [exact Hp|]. split; [lia|].
        destruct id; cbn; auto.
      * cbn [snd fst trace]. unfold total_sleep in *.
        destruct (posts_sleeps_log (trace w1) ERROR
                    ("Failed to publish post: " ++ exn_str e)) as [-> ->].
        split; [exact Hp|]. split; [lia|]. now right.
    + cbn [snd fst trace] in *. unfold total_sleep in *.
      destruct (posts_sleeps_log (trace w1) ERROR
                  ("Failed to publish post: " ++ exn_str e)) as [-> ->].
      split; [exact Hp|]. split; [lia|]. now right.
  - cbn. split; [lia|]. split; [lia|]. now right.
Qed.

(** The handler answers 200 only when the selector returned an item and
    the remote side accepted a request: the post_id it reports is the
    string id of the JSON object sent back to the last request, every
    request before that one having failed. *)
Theorem create_post_200_sound r1 r2 id :
  fst (create_post repr_dict net page_id access_token database r1 r2 start)
  = Response200 id ->
  exists item k d,
    get_random_chapter database r1 r2 = Ok item /\
    (k < 3)%nat /\
    net k = Responds (PDict d) /\
    dict_lookup "id" d = Some (PStr id) /\
    (forall i, (i < k)%nat -> exists e, net i = Fails e) /\
    posts (trace (snd (create_post repr_dict net page_id access_token
                         database r1 r2 start))) = S k.
Proof.
  unfold create_post, create_post_body, bind, lift.
  destruct (get_random_chapter database r1 r2) as [item|e]; [|discriminate].
  destruct (post_to_facebook repr_dict net page_id access_token
              (format_message repr_dict item) (link item) 3 5 FbPoster start)
    as [[v|e] w1] eqn:Hrun; [|discriminate].
  destruct (publish_success_sound repr_dict net page_id access_token _ _ 3 5
              FbPoster v w1 ltac:(lia) Hrun)
    as (k & d & Hk & -> & Hn & Hf & Hp).
  cbn [py_get fst snd]. unfold post_response, dict_get.
  destruct (dict_lookup "id" d) as [[|s|?]|] eqn:Hid; try discriminate.
  intros [= ->]. exists item, k, d.
  repeat split; try assumption; try reflexivity. lia.
Qed.

(** [setup_env] returns a pair exactly when both variables are set to
    non-empty strings, and then it returns their values; in every other
    case, a variable set to the empty string included, it raises
    [EnvironmentError]. *)
Theorem setup_env_ok_iff getenv :
  (forall p t,
     setup_env getenv = inr (p, t)
     <-> getenv "FB_PAGE_ID" = Some p /\ getenv "FB_ACCESS_TOKEN" = Some t /\
         p <> "" /\ t <> "") /\
  ((exists p t, setup_env getenv = inr (p, t)) \/
   setup_env getenv
   = inl (EnvironmentError
            "FB_PAGE_ID and FB_ACCESS_TOKEN must be set in .env file")).
Proof.
  unfold setup_env.
  destruct (getenv "FB_PAGE_ID") as [p0|]; [destruct (getenv "FB_ACCESS_TOKEN")
    as [t0|]|].
  - destruct (String.eqb p0 "") eqn:Ep; [|destruct (String.eqb t0 "") eqn:Et];
      cbn [orb].
    + apply String.eqb_eq in Ep. subst p0. split; [|now right].
      intros p t; split; [discriminate|]. intros ([= <-] & _ & H & _).
      congruence.
    + apply String.eqb_eq in Et. subst t0. split; [|now right].
      intros p t; split; [discriminate|]. intros (_ & [= <-] & _ & H).
      congruence.
    + apply String.eqb_neq in Ep, Et. split; [|left; eauto].
      intros p t; split.
      * intros [= <- <-]. auto.
      * intros ([= <-] & [= <-] & _). reflexivity.
  - split; [|now right]. intros p t; split; [discriminate|].
    intros (_ & H & _). discriminate.
  - split; [|now right]. intros p t; split; [discriminate|].
    intros (H & _). discriminate.
Qed.

(** With the identity and the credential [setup_env] returned, every
    request the handler has sent goes to the feed address of that page
    and carries that credential, which is not empty, and the published
    flag. *)
Theorem requests_carry_credentials getenv r1 r2 :
  setup_env getenv = inr (page_id, access_token) ->
  page_id <> "" /\ access_token <> "" /\
  posts_authorised
    ("https://graph.facebook.com/v22.0/" ++ page_id ++ "/feed") access_token
    (trace (snd (create_post repr_dict net page_id access_token database
                   r1 r2 start))).
Proof.
  intros Henv.
  destruct (setup_env_ok_iff getenv) as [Hiff _].
  apply Hiff in Henv. destruct Henv as (_ & _ & Hp & Ht).
  split; [exact Hp|]. split; [exact Ht|].
  change ("https://graph.facebook.com/v22.0/" ++ page_id ++ "/feed")
    with (feed_url page_id).
  unfold posts_authorised, create_post, create_post_body, bind, lift.
  destruct (get_random_chapter database r1 r2) as [item|e];
    [|repeat constructor].
  destruct (default_publish_posts repr_dict net page_id access_token
              (format_message repr_dict item) (link item) _ eq_refl)
    as [_ Hc].
  assert (Forall (fun ev => match ev with
                            | EvPost u p =>
                                u = feed_url page_id /\
                                dict_lookup "access_token" p
                                = Some (PStr access_token) /\
                                dict_lookup "published" p = Some (PStr "true")
                            | _ => True
                            end)
            (trace (snd (post_to_facebook repr_dict net page_id access_token
                           (format_message repr_dict item) (link item) 3 5
                           FbPoster start)))) as Ha.
  { eapply Forall_impl; [|exact Hc]. intros [u p| |]; cbn; auto.
    intros [-> ->]. split; [reflexivity|]. apply credentials_in_payload. }
  destruct (post_to_facebook _ _ _ _ _ _ _ _ _ _) as [[v|e] w1];
    cbn [snd] in Ha.
  - destruct (py_get v "id" PNone); cbn [snd trace]; [exact Ha|].
    apply Forall_app; split; [exact Ha | repeat constructor].
  - cbn [snd trace]. apply Forall_app; split; [exact Ha | repeat constructor].
Qed.

End HandlerMore.

(* ================================================================= *)
(** ** The log sinks *)

Section Logging.

Variable repr_dict : dict -> string.
Variable net : transport.
Variables page_id access_token : string.
Variable database : list value.

Lemma written_app logger s tr1 tr2 :
  written logger s (tr1 ++ tr2)
  = (written logger s tr1 ++ written logger s tr2)%list.
Proof. unfold written. apply flat_map_app. Qed.

(** After one [setup_logging] on a logger without handlers, the console
    gets every record and the log file gets the records at error level and
    no other; nothing is written to any other file. *)
Theorem log_routing log_file tr :
  written (setup_logging log_file []) Console tr = log_records tr /\
  written (setup_logging log_file []) (LogFile log_file) tr
  = error_records tr /\
  (forall other, other <> log_file ->
     written (setup_logging log_file []) (LogFile other) tr = []).
Proof.
  unfold error_records.
  induction tr as [|ev tr (IH1 & IH2 & IH3)].
  - repeat split.
  - change (ev :: tr) with ([ev] ++ tr)%list.
    unfold log_records in *. rewrite !written_app, flat_map_app, filter_app.
    rewrite IH1, IH2. split; [|split].
    + f_equal. destruct ev as [| |[] msg]; reflexivity.
    + f_equal.
      destruct ev as [| |[] msg]; cbn; unfold deliver; cbn;
        rewrite ?String.eqb_refl; reflexivity.
    + intros other Ho. rewrite written_app, (IH3 other Ho), app_nil_r.
      apply String.eqb_neq in Ho. rewrite String.eqb_sym in Ho.
      destruct ev as [| |[] msg]; cbn; unfold deliver; cbn;
        rewrite ?Ho; reflexivity.
Qed.

(** [setup_logging] is not idempotent: run twice on the same logger, it
    leaves two handlers on each sink, and every record reaches the console
    twice. *)
Theorem setup_logging_twice_duplicates log_file tr :
  written (setup_logging log_file (l_handlers (setup_logging log_file [])))
    Console tr
  = flat_map (fun r => [r; r]) (log_records tr) /\
  List.length (l_handlers
                 (setup_logging log_file
                    (l_handlers (setup_logging log_file [])))) = 4%nat.
Proof.
  split; [|reflexivity].
  induction tr as [|ev tr IH]; [reflexivity|].
  change (ev :: tr) with ([ev] ++ tr)%list.
  unfold log_records in *. rewrite written_app, !flat_map_app, IH.
  f_equal. destruct ev as [| |[] msg]; reflexivity.
Qed.

(** Every answer the handler gives by raising [HTTPException] is on
    record: the last line it leaves in the log file, with the logger set up
    as at start-up, is the error record that carries the detail of the
    answer. *)
Theorem every_failure_is_on_file log_file r1 r2 detail :
  fst (create_post repr_dict net page_id access_token database r1 r2 start)
  = HTTPException500 detail ->
  exists before,
    written (setup_logging log_file []) (LogFile log_file)
      (trace (snd (create_post repr_dict net page_id access_token database
                     r1 r2 start)))
    = (before ++ [(ERROR, ("Failed to publish post: " ++ detail)%string)])%list.
Proof.
  unfold create_post.
  destruct (create_post_body repr_dict net page_id access_token database
              r1 r2 start) as [[id|e] w].
  - cbn [fst]. destruct id; discriminate.
  - cbn [fst snd trace]. intros [= <-].
    rewrite written_app. eexists. f_equal.
    cbn. unfold deliver. cbn. rewrite String.eqb_refl. reflexivity.
Qed.

End Logging.

(* ================================================================= *)
(** ** The further properties at work on the sample inputs *)

Lemma get_random_chapter_ok_iff_witness :
  exists book chapters chapter full,
    In (PDict book) (one_chapter_db "main_title" short_chapter) /\
    random_choice 4 (one_chapter_db "main_title" short_chapter)
    = Ok (PDict book) /\
    dict_get "chapters" (PDict []) book = PDict chapters /\
    random_choice 9 (map fst chapters) = Ok "Economy" /\
    In ("Economy", PDict chapter) chapters /\
    dict_lookup "Economy" chapters = Some (PDict chapter) /\
    dict_get "text" (PStr "") chapter = PStr full /\
    PStr "Walden" = dict_get "main_title" PNone book /\
    PStr "Thoreau" = dict_get "author" PNone book /\
    "Hi...." = excerpt_text full /\
    PNone = dict_get "link" PNone chapter.
Proof.
  exact (proj1 (get_random_chapter_ok_iff
                  (one_chapter_db "main_title" short_chapter) 4 9
                  (mkExcerpt (PStr "Walden") (PStr "Thoreau") "Economy"
                     "Hi...." PNone)) eq_refl).
Defined.

Lemma every_chapter_can_be_drawn_witness :
  exists r1 r2,
    get_random_chapter two_books r1 r2
    = Ok (mkExcerpt (dict_get "main_title" PNone essays)
            (dict_get "author" PNone essays) "Self-Reliance"
            (excerpt_text "Trust thyself. ")
            (dict_get "link" PNone
               [("text", PStr "Trust thyself. "); ("link", PStr "")])).
Proof.
  apply (every_chapter_can_be_drawn two_books essays
           [("Nature", PDict hello_chapter);
            ("Self-Reliance",
             PDict [("text", PStr "Trust thyself. "); ("link", PStr "")])]
           "Self-Reliance"
           [("text", PStr "Trust thyself. "); ("link", PStr "")]
           "Trust thyself. ").
  - right. now left.
  - reflexivity.
  - reflexivity.
  - reflexivity.
Defined.

Lemma nothing_to_choose_from_witness :
  get_random_chapter [PDict [("main_title", PStr "Walden")]] 0 0
  = Raise (IndexError "Cannot choose from an empty sequence") /\
  create_post no_repr accepts "page" "token"
    [PDict [("main_title", PStr "Walden")]] 0 0 start
  = (HTTPException500 "Cannot choose from an empty sequence",
     mkWorld 0 [EvLog ERROR
                  "Failed to publish post: Cannot choose from an empty sequence"]).
Proof.
  apply (nothing_to_choose_from no_repr accepts "page" "token"
           [PDict [("main_title", PStr "Walden")]] 0 0).
  right. eexists; split; reflexivity.
Defined.

Lemma null_text_is_an_error_witness :
  get_random_chapter (one_chapter_db "main_title" null_chapter) 0 0
  = Raise (TypeError "'NoneType' object is not subscriptable") /\
  fst (create_post no_repr accepts "page" "token"
         (one_chapter_db "main_title" null_chapter) 0 0 start)
  = HTTPException500 "'NoneType' object is not subscriptable" /\
  posts (trace (snd (create_post no_repr accepts "page" "token"
                       (one_chapter_db "main_title" null_chapter) 0 0
                       start))) = O.
Proof.
  apply (null_text_is_an_error no_repr accepts "page" "token"
           (one_chapter_db "main_title" null_chapter) 0 0
           (walden "main_title" null_chapter) "Economy" null_chapter).
  - split; [reflexivity|]. eexists; repeat split; reflexivity.
  - reflexivity.
Defined.

Lemma create_post_200_sound_witness :
  exists item k d,
    get_random_chapter (one_chapter_db "main_title" short_chapter) 0 0
    = Ok item /\
    (k < 3)%nat /\
    fails_twice k = Responds (PDict d) /\
    dict_lookup "id" d = Some (PStr "1_77") /\
    (forall i, (i < k)%nat -> exists e, fails_twice i = Fails e) /\
    posts (trace (snd (create_post no_repr fails_twice "page" "token"
                         (one_chapter_db "main_title" short_chapter) 0 0
                         start))) = S k.
Proof.
  apply (create_post_200_sound no_repr fails_twice "page" "token"
           (one_chapter_db "main_title" short_chapter) 0 0 "1_77").
  reflexivity.
Defined.

Lemma setup_env_ok_iff_witness :
  setup_env sample_env = inr ("1234", "secret") /\
  (forall p t, setup_env empty_token_env <> inr (p, t)).
Proof.
  split.
  - apply (proj1 (setup_env_ok_iff sample_env) "1234" "secret").
    repeat split; discriminate.
  - intros p t H.
    apply (proj1 (setup_env_ok_iff empty_token_env) p t) in H.
    destruct H as (_ & [= <-] & _ & Ht). now apply Ht.
Defined.

Lemma requests_carry_credentials_witness :
  "1234" <> "" /\ "secret" <> "" /\
  posts_authorised ("https://graph.facebook.com/v22.0/" ++ "1234" ++ "/feed")
    "secret"
    (trace (snd (create_post no_repr fails_twice "1234" "secret"
                   (one_chapter_db "main_title" short_chapter) 0 0 start))).
Proof.
  apply (requests_carry_credentials no_repr fails_twice "1234" "secret"
           (one_chapter_db "main_title" short_chapter) sample_env 0 0).
  reflexivity.
Defined.

Lemma zero_retries_send_nothing_witness :
  post_to_facebook no_repr accepts "page" "token" "Hello" PNone 0 5
    FbPoster start
  = (Ok PNone, start).
Proof.
  apply (zero_retries_send_nothing no_repr accepts "page" "token" "Hello"
           PNone 0 5 FbPoster start).
  lia.
Defined.

Lemma no_logger_fails_after_one_request_witness :
  exists m,
    post_to_facebook no_repr accepts "page" "token" "Hello" PNone 3 5
      NoLogger start
    = (Raise (AttributeError m),
       mkWorld 1 [EvPost (feed_url "page")
                    (build_payload "token" "Hello" PNone)]).
Proof.
  apply (no_logger_fails_after_one_request no_repr accepts "page" "token"
           "Hello" PNone 3 5).
  lia.
Defined.

Lemma non_object_body_is_not_retried_witness :
  exists w,
    post_to_facebook no_repr answers_text "page" "token" "Hello" PNone 3 5
      FbPoster start
    = (Raise (no_attribute (PStr "ok") "get"), w) /\
    calls w = 1%nat /\ posts (trace w) = 1%nat.
Proof.
  apply (non_object_body_is_not_retried no_repr answers_text "page" "token"
           "Hello" PNone 3 5 0 (PStr "ok")).
  - discriminate.
  - lia.
  - unfold sleep_sure. lia.
  - lia.
  - intros i Hi. lia.
  - reflexivity.
Defined.

Lemma refused_sleep_stops_retry_witness :
  exists exc w,
    post_to_facebook no_repr always_fails "page" "token" "Hello" PNone
      3 10000000000 FbPoster start
    = (Raise exc, w) /\
    posts (trace w) = 1%nat /\ sleeps (trace w) = [] /\
    (-9223372036 <= 10000000000 -> 10000000000 < 0 ->
     exc = ValueError "sleep length must be non-negative") /\
    (10000000000 < -9223372036 \/ 9223372036 < 10000000000 ->
     exists m, exc = OverflowError m).
Proof.
  apply (refused_sleep_stops_retry no_repr always_fails "page" "token"
           "Hello" PNone 3 10000000000 "timed out").
  - right. lia.
  - lia.
  - reflexivity.
Defined.

Lemma publish_total_sleep_bound_witness :
  2 * total_sleep
        (trace (snd (post_to_facebook no_repr always_fails "page" "token"
                       "Hello" PNone 3 5 FbPoster start)))
  <= 5 * 3 * (3 - 1).
Proof.
  apply (publish_total_sleep_bound no_repr always_fails "page" "token"
           "Hello" PNone 3 5 FbPoster); lia.
Defined.

Lemma publish_success_sound_witness :
  exists k d,
    Z.of_nat k < 3 /\
    PDict [("id", PStr "1_77"); ("ok", PStr "yes")] = PDict d /\
    fails_twice k = Responds (PDict d) /\
    (forall i, (i < k)%nat -> exists e, fails_twice i = Fails e) /\
    posts (trace (snd (post_to_facebook no_repr fails_twice "page" "token"
                         "Hello" PNone 3 5 FbPoster start))) = S k.
Proof.
  apply (publish_success_sound no_repr fails_twice "page" "token" "Hello"
           PNone 3 5 FbPoster
           (PDict [("id", PStr "1_77"); ("ok", PStr "yes")])
           (snd (post_to_facebook no_repr fails_twice "page" "token"
                   "Hello" PNone 3 5 FbPoster start))).
  - lia.
  - reflexivity.
Defined.

Lemma publish_failure_sound_witness :
  (forall i, (i < Z.to_nat 3)%nat -> exists e', always_fails i = Fails e') /\
  always_fails (Z.to_nat 3 - 1)%nat = Fails "timed out" /\
  posts (trace (snd (post_to_facebook no_repr always_fails "page" "token"
                       "Hello" PNone 3 5 FbPoster start))) = Z.to_nat 3.
Proof.
  apply (publish_failure_sound no_repr always_fails "page" "token" "Hello"
           PNone 3 5 FbPoster "timed out"
           (snd (post_to_facebook no_repr always_fails "page" "token"
                   "Hello" PNone 3 5 FbPoster start))).
  - lia.
  - reflexivity.
Defined.

Lemma log_routing_witness :
  written (setup_logging "fb_poster.log" [])
    (LogFile "other.log")
    [EvLog ERROR "Max retries reached. Could not post to Facebook."]
  = [].
Proof.
  apply (proj2 (proj2 (log_routing "fb_poster.log"
                         [EvLog ERROR
                            "Max retries reached. Could not post to Facebook."]))
           "other.log").
  discriminate.
Defined.

Lemma every_failure_is_on_file_witness :
  exists before,
    written (setup_logging "fb_poster.log" [])
      (LogFile "fb_poster.log")
      (trace (snd (create_post no_repr always_fails "page" "token"
                     (one_chapter_db "main_title" short_chapter) 0 0 start)))
    = (before
       ++ [(ERROR, ("Failed to publish post: " ++ "timed out")%string)])%list.
Proof.
  apply (every_failure_is_on_file no_repr always_fails "page" "token"
           (one_chapter_db "main_title" short_chapter) "fb_poster.log" 0 0
           "timed out").
  reflexivity.
Defined.
